(** * Backward selection of OLS regressors by p-value

    A shallow embedding of [OLS_BackwardsSelection.py].  The class
    [OLS_BackwardsSelection] keeps a mutable object; its methods are
    embedded as computations in a state-and-exception monad over a record
    with the object's attributes.  The regression itself (statsmodels'
    [sm.OLS(y, x)] and [model.fit()]) is an external collaborator and is a
    parameter of the development: each of the two calls returns or raises.

    Modelling conventions:
    - Python floats are rationals ([Q]); NaN and rounding are not modelled.
      numpy's element-wise [==] and [>] are [Qeq_bool] and the strict order.
    - A two-dimensional numpy array is a row count together with the list
      of its columns; a pandas DataFrame is a row count together with the
      list of its labelled columns (order and duplicate labels are kept).
    - The target is a one-dimensional numpy array.
    - [a == None] on a numpy array is element-wise, and the truth value of
      the resulting array is defined only when it has exactly one element
      (it is then false); any other array raises ValueError, as [if] and
      [or] do on it in the current release of numpy.  Only [None == None]
      is true.
    - A position is looked for among p-values that are numbers; the
      statements that need the position take its being found as a
      hypothesis.
    - [np.delete] raises on a position out of range and [.loc] raises on a
      label without a column, as the current releases of numpy and pandas
      do.
    - Exceptions are identified by the name of their Python class.
    - The [while] loop takes a fuel argument bounding the number of passes;
      running out of fuel is a separate outcome, never confused with a
      normal return. *)

From Stdlib Require Import String List ZArith QArith Lia Bool Permutation Arith.
Import ListNotations.
Open Scope string_scope.
Open Scope list_scope.
Open Scope Q_scope.

(** ** Exceptions and outcomes *)

Inductive exn : Type := PyExc (cls : string).

Definition AttributeError : exn := PyExc "AttributeError".
Definition TypeError : exn := PyExc "TypeError".
Definition IndexError : exn := PyExc "IndexError".
Definition KeyError : exn := PyExc "KeyError".
Definition ValueError : exn := PyExc "ValueError".
Definition AxisError : exn := PyExc "AxisError".

Inductive outcome (A : Type) : Type :=
| Done (a : A)
| Raise (e : exn)
| OutOfFuel.
Arguments Done {A} a.
Arguments Raise {A} e.
Arguments OutOfFuel {A}.

(** ** numpy, pandas and builtin primitives used by the class *)

Record ndarray : Type := mk_ndarray { nrows : nat; columns : list (list Q) }.

Definition ncols (a : ndarray) : nat := length (columns a).

(** [a.size] *)
Definition ndarray_size (a : ndarray) : nat := (nrows a * ncols a)%nat.

Record DataFrame : Type :=
  mk_DataFrame { df_nrows : nat; df_columns : list (string * list Q) }.

(** [exog.values] *)
Definition values (df : DataFrame) : ndarray :=
  mk_ndarray (df_nrows df) (map snd (df_columns df)).

(** [exog.columns.values] *)
Definition columns_values (df : DataFrame) : list string :=
  map fst (df_columns df).

(** [a.copy()] : arrays are values here, a copy is the array itself. *)
Definition copy (a : ndarray) : ndarray := a.

(** Removal of the element at position [i]. *)
Definition delete_at {A : Type} (i : nat) (l : list A) : list A :=
  firstn i l ++ skipn (S i) l.

(** [del l[i]] : raises IndexError out of range. *)
Definition list_del {A : Type} (l : list A) (i : nat) : exn + list A :=
  if (i <? length l)%nat then inr (delete_at i l) else inl IndexError.

(** [np.delete(a, i, axis=1)] : raises IndexError out of range; on [None]
    (a zero-dimensional object array) axis 1 does not exist. *)
Definition np_delete (a : option ndarray) (i : nat) : exn + ndarray :=
  match a with
  | None => inl AxisError
  | Some a =>
      if (i <? ncols a)%nat
      then inr (mk_ndarray (nrows a) (delete_at i (columns a)))
      else inl IndexError
  end.

Definition Qgt_bool (a b : Q) : bool := negb (Qle_bool a b).

(** The truth value of [a == None] for an array [a] of numbers with [size]
    elements: the comparison is element-wise and every element differs
    from [None]; an array of one element has the truth value of that
    element, any other array has none and [bool()] raises ValueError. *)
Definition array_eq_None (size : nat) : exn + bool :=
  if (size =? 1)%nat then inr false else inl ValueError.

(** The truth value of [v == None] for an argument that is [None] or an
    array. *)
Definition eq_None {A : Type} (size : A -> nat) (v : option A) : exn + bool :=
  match v with
  | None => inr true
  | Some a => array_eq_None (size a)
  end.

(** [sum(pvalues > criteria)] : the number of entries above [criteria]. *)
Definition sum_gt (pvalues : list Q) (criteria : Q) : nat :=
  list_sum (map (fun p => if Qgt_bool p criteria then 1%nat else 0%nat) pvalues).

(** The builtin [max] of a sequence: the running maximum is replaced only
    by a strictly larger item, so the first maximal element is returned;
    ValueError on an empty sequence. *)
Definition max_step (m y : Q) : Q := if Qgt_bool y m then y else m.

Definition py_max (l : list Q) : exn + Q :=
  match l with
  | [] => inl ValueError
  | x :: xs => inr (fold_left max_step xs x)
  end.

(** [np.where(pvalues == m)[0]] : the positions holding [m], ascending. *)
Fixpoint where_eq_from (k : nat) (pvalues : list Q) (m : Q) : list nat :=
  match pvalues with
  | [] => []
  | p :: ps => if Qeq_bool p m then k :: where_eq_from (S k) ps m
               else where_eq_from (S k) ps m
  end.

Definition np_where_eq (pvalues : list Q) (m : Q) : list nat :=
  where_eq_from 0 pvalues m.

(** [l[0]] *)
Definition item0 {A : Type} (l : list A) : exn + A :=
  match l with
  | [] => inl IndexError
  | x :: _ => inr x
  end.

(** [df.loc[:, labels]] : for each requested label, in the order requested,
    every column of [df] carrying that label; KeyError when a label has no
    column. *)
Definition label_eqb (a b : string) : bool := String.eqb a b.

Definition columns_of (df : DataFrame) (v : string) : list (list Q) :=
  map snd (filter (fun c => label_eqb (fst c) v) (df_columns df)).

Fixpoint loc_columns (df : DataFrame) (labels : list string)
  : exn + list (list Q) :=
  match labels with
  | [] => inr []
  | v :: vs =>
      match columns_of df v with
      | [] => inl KeyError
      | cs => match loc_columns df vs with
              | inl e => inl e
              | inr rest => inr (cs ++ rest)
              end
      end
  end.

Definition loc (df : DataFrame) (labels : list string) : exn + ndarray :=
  match loc_columns df labels with
  | inl e => inl e
  | inr cs => inr (mk_ndarray (df_nrows df) cs)
  end.

(** Row [i] of a matrix against a coefficient vector. *)
Fixpoint dot_row (i : nat) (cols : list (list Q)) (params : list Q) : Q :=
  match cols, params with
  | c :: cs, b :: bs => nth i c 0 * b + dot_row i cs bs
  | _, _ => 0
  end.

(** [np.dot(x, params)] : ValueError when the shapes are not aligned. *)
Definition np_dot (x : ndarray) (params : list Q) : exn + list Q :=
  if (ncols x =? length params)%nat
  then inr (map (fun i => dot_row i (columns x) params) (seq 0 (nrows x)))
  else inl ValueError.

(** ** statsmodels objects *)

(** The model object built by [sm.OLS(y, x)]. *)
Record OLS : Type := mk_OLS { endog : list Q; exog : ndarray }.

(** The object returned by [fit()]. *)
Record RegressionResults : Type := mk_results {
  params : list Q;
  pvalues : list Q;
  rsquared : Q;
  rsquared_adj : Q
}.

(** [results.predict(x)] of a linear model. *)
Definition results_predict (r : RegressionResults) (x : ndarray) : exn + list Q :=
  np_dot x (params r).

(** statsmodels as the class uses it: [sm.OLS(y, x)] builds a model object
    or raises (it validates its arguments), [model.fit()] returns the
    results or raises. *)
Record statsmodels : Type := mk_statsmodels {
  sm_OLS : list Q -> ndarray -> exn + OLS;
  OLS_fit : OLS -> exn + RegressionResults
}.

(** ** The object state *)

Record OLS_BackwardsSelection : Type := mk_selector {
  modelX : ndarray;
  modelY : list Q;
  variables : list string;
  modelXBack : option ndarray;
  model : option OLS;
  results : option RegressionResults;
  coef : option (list Q);
  Rsquared : option Q;
  Rsquared_adj : option Q
}.

Abbreviation Selector := OLS_BackwardsSelection.

Definition set_variables (v : list string) (s : Selector) : Selector :=
  mk_selector (modelX s) (modelY s) v (modelXBack s) (model s) (results s)
              (coef s) (Rsquared s) (Rsquared_adj s).
Definition set_modelXBack (x : option ndarray) (s : Selector) : Selector :=
  mk_selector (modelX s) (modelY s) (variables s) x (model s) (results s)
              (coef s) (Rsquared s) (Rsquared_adj s).
Definition set_model (m : option OLS) (s : Selector) : Selector :=
  mk_selector (modelX s) (modelY s) (variables s) (modelXBack s) m (results s)
              (coef s) (Rsquared s) (Rsquared_adj s).
Definition set_results (r : option RegressionResults) (s : Selector) : Selector :=
  mk_selector (modelX s) (modelY s) (variables s) (modelXBack s) (model s) r
              (coef s) (Rsquared s) (Rsquared_adj s).
Definition set_coef (c : option (list Q)) (s : Selector) : Selector :=
  mk_selector (modelX s) (modelY s) (variables s) (modelXBack s) (model s)
              (results s) c (Rsquared s) (Rsquared_adj s).
Definition set_Rsquared (r : option Q) (s : Selector) : Selector :=
  mk_selector (modelX s) (modelY s) (variables s) (modelXBack s) (model s)
              (results s) (coef s) r (Rsquared_adj s).
Definition set_Rsquared_adj (r : option Q) (s : Selector) : Selector :=
  mk_selector (modelX s) (modelY s) (variables s) (modelXBack s) (model s)
              (results s) (coef s) (Rsquared s) r.

(** ** The monad of methods: state of [self], exceptions, fuel *)

Definition M (A : Type) : Type := Selector -> outcome A * Selector.

Definition ret {A : Type} (a : A) : M A := fun s => (Done a, s).

Definition bind {A B : Type} (m : M A) (k : A -> M B) : M B :=
  fun s =>
    match m s with
    | (Done a, s') => k a s'
    | (Raise e, s') => (Raise e, s')
    | (OutOfFuel, s') => (OutOfFuel, s')
    end.

Definition raise {A : Type} (e : exn) : M A := fun s => (Raise e, s).
Definition out_of_fuel {A : Type} : M A := fun s => (OutOfFuel, s).
Definition get : M Selector := fun s => (Done s, s).
Definition gets {A : Type} (f : Selector -> A) : M A := fun s => (Done (f s), s).
Definition modify (f : Selector -> Selector) : M unit := fun s => (Done tt, f s).

(** A primitive that returns or raises. *)
Definition lift {A : Type} (r : exn + A) : M A :=
  match r with
  | inl e => raise e
  | inr a => ret a
  end.

(** Reading an attribute of an attribute that may be [None]:
    [self.results.pvalues] raises AttributeError when [self.results is None]. *)
Definition attr {A B : Type} (f : Selector -> option A) (g : A -> B) : M B :=
  fun s => match f s with
           | None => (Raise AttributeError, s)
           | Some a => (Done (g a), s)
           end.

Declare Scope py_scope.
Delimit Scope py_scope with py.
Notation "x <- m ;; k" := (bind m (fun x => k))
  (at level 100, m at next level, right associativity) : py_scope.
Notation "m ;; k" := (bind m (fun _ => k))
  (at level 100, right associativity) : py_scope.
Open Scope py_scope.

(** ** The class *)

(** The attribute assignments of [__init__(self, exog, endog)]. *)
Definition init_attributes (exog : DataFrame) (endog : list Q) : Selector :=
  {| modelX := values exog;
     modelY := endog;
     variables := columns_values exog;
     modelXBack := None;
     model := None;
     results := None;
     coef := None;
     Rsquared := None;
     Rsquared_adj := None |}.

(** [OLS_BackwardsSelection(exog, endog)] : the constructor has no check
    and no statement that can raise. *)
Definition __init__ (exog : DataFrame) (endog : list Q) : outcome Selector :=
  Done (init_attributes exog endog).

(** One pass of the elimination loop, as observed from outside: the object
    when the pass starts, the position chosen, the object when the pass
    ends.  This is a ghost record; the Python method returns nothing. *)
Record pass : Type := mk_pass {
  before : Selector;
  indexRemove : nat;
  after : Selector
}.

Definition default_criteria : Q := 5 # 100.
Definition default_maxSteps : Z := 10.
Definition Rsquared_floor : Q := 7 # 10.

Section Methods.

(** [import statsmodels.api as sm] : the external least-squares solver. *)
Variable sm : statsmodels.

(** The test [x == None or y == None] of [modelOLS]: [x] is compared first
    and [y] only when that comparison is false. *)
Definition either_is_None (y : option (list Q)) (x : option ndarray) : M bool :=
  x_is_None <- lift (eq_None ndarray_size x) ;;
  if x_is_None then ret true else lift (eq_None (@length Q) y).

(** [modelOLS(self, y=None, x=None)] *)
Definition modelOLS (y : option (list Q)) (x : option ndarray) : M unit :=
  stored <- either_is_None y x ;;
  s <- get ;;
  let yx := match stored, x, y with
            | false, Some x', Some y' => (y', x')
            | _, _, _ => (modelY s, modelX s)
            end in
  m0 <- lift (sm_OLS sm (fst yx) (snd yx)) ;;
  modify (set_model (Some m0)) ;;
  m <- attr model (fun m => m) ;;
  r <- lift (OLS_fit sm m) ;;
  modify (set_results (Some r)) ;;
  c <- attr results params ;;
  modify (set_coef (Some c)) ;;
  r2 <- attr results rsquared ;;
  modify (set_Rsquared (Some r2)) ;;
  r2a <- attr results rsquared_adj ;;
  modify (set_Rsquared_adj (Some r2a)).

(** [_removeColumn(self, colNum)] *)
Definition _removeColumn (colNum : nat) : M unit :=
  vs <- gets variables ;;
  vs' <- lift (list_del vs colNum) ;;
  modify (set_variables vs') ;;
  xb <- gets modelXBack ;;
  xb' <- lift (np_delete xb colNum) ;;
  modify (set_modelXBack (Some xb')).

(** The loop condition of [backwardSelect]:
    [sum(self.results.pvalues > criteria) != 0 and maxSteps >= iteration
     and self.Rsquared > 0.7], evaluated left to right with short-circuit;
    ordering [None] against a float raises TypeError. *)
Definition loop_test (criteria : Q) (maxSteps iteration : Z) : M bool :=
  pv <- attr results pvalues ;;
  if negb (sum_gt pv criteria =? 0)%nat then
    if (maxSteps >=? iteration)%Z then
      r2 <- gets Rsquared ;;
      match r2 with
      | None => raise TypeError
      | Some r => ret (Qgt_bool r Rsquared_floor)
      end
    else ret false
  else ret false.

(** [np.where(self.results.pvalues == max(self.results.pvalues))[0][0]] *)
Definition first_index_of_max : M nat :=
  pv <- attr results pvalues ;;
  pv' <- attr results pvalues ;;
  m <- lift (py_max pv') ;;
  lift (item0 (np_where_eq pv m)).

(** The body of the [while] loop: choose the position, remove it, refit. *)
Definition loop_pass : M pass :=
  s0 <- get ;;
  i <- first_index_of_max ;;
  _removeColumn i ;;
  y <- gets modelY ;;
  x <- gets modelXBack ;;
  modelOLS (Some y) x ;;
  s1 <- get ;;
  ret (mk_pass s0 i s1).

(** The [while] loop of [backwardSelect]; [fuel] bounds the passes. *)
Fixpoint backwardSelect_while (fuel : nat) (criteria : Q)
         (maxSteps iteration : Z) : M (list pass) :=
  go <- loop_test criteria maxSteps iteration ;;
  if go then
    match fuel with
    | O => out_of_fuel
    | S fuel' =>
        p <- loop_pass ;;
        rest <- backwardSelect_while fuel' criteria maxSteps (iteration + 1)%Z ;;
        ret (p :: rest)
    end
  else ret [].

(** The first statement of [backwardSelect]:
    [self.modelXBack = self.modelX.copy()]. *)
Definition backwardSelect_init : M unit :=
  x <- gets modelX ;;
  modify (set_modelXBack (Some (copy x))).

(** [backwardSelect] with the passes it performed made visible. *)
Definition backwardSelect_passes (fuel : nat) (criteria : Q) (maxSteps : Z)
  : M (list pass) :=
  backwardSelect_init ;;
  backwardSelect_while fuel criteria maxSteps 0%Z.

(** [backwardSelect(self, criteria=0.05, maxSteps=10)] *)
Definition backwardSelect (fuel : nat) (criteria : Q) (maxSteps : Z) : M unit :=
  backwardSelect_passes fuel criteria maxSteps ;;
  ret tt.

(** [predict(self, exogTest)] : the callee [self.results.predict] is
    evaluated before its argument. *)
Definition predict (exogTest : DataFrame) : M (list Q) :=
  r <- attr results (fun r => r) ;;
  vs <- gets variables ;;
  x <- lift (loc exogTest vs) ;;
  lift (results_predict r x).

(** The loop as a relation between loop heads:
    [run c mx it s tr s'] says that, started with counter [it] on object
    [s], the loop performs the passes [tr] and exits on object [s']. *)
Inductive run (c : Q) (mx : Z) : Z -> Selector -> list pass -> Selector -> Prop :=
| run_exit it s :
    loop_test c mx it s = (Done false, s) ->
    run c mx it s [] s
| run_pass it s p s1 tr s' :
    loop_test c mx it s = (Done true, s) ->
    loop_pass s = (Done p, s1) ->
    run c mx (it + 1)%Z s1 tr s' ->
    run c mx it s (p :: tr) s'.

(** A pass removed position [indexRemove] from the working matrix, refit
    on the result and the unchanged target, and stored the new fit. *)
Definition refit_pass (p : pass) : Prop :=
  exists x m r,
    np_delete (modelXBack (before p)) (indexRemove p) = inr x /\
    sm_OLS sm (modelY (before p)) x = inr m /\
    OLS_fit sm m = inr r /\
    modelXBack (after p) = Some x /\
    modelY (after p) = modelY (before p) /\
    modelX (after p) = modelX (before p) /\
    model (after p) = Some m /\
    results (after p) = Some r /\
    coef (after p) = Some (params r) /\
    Rsquared (after p) = Some (rsquared r) /\
    Rsquared_adj (after p) = Some (rsquared_adj r).

End Methods.

(** ** Vocabulary of the statements *)

(** Position [i] holds the largest p-value and is the first to do so. *)
Definition first_argmax (pv : list Q) (i : nat) : Prop :=
  (i < length pv)%nat /\
  (forall j, (j < length pv)%nat -> nth j pv 0 <= nth i pv 0) /\
  (forall j, (j < i)%nat -> nth j pv 0 < nth i pv 0).

(** The object after a pass, given the registry, the working matrix and the
    fit result the pass produced. *)
Definition refitted (s : Selector) (vs : list string) (x : ndarray)
           (m : OLS) (r : RegressionResults) : Selector :=
  mk_selector (modelX s) (modelY s) vs (Some x) (Some m)
              (Some r) (Some (params r)) (Some (rsquared r))
              (Some (rsquared_adj r)).

(** Registry and working matrix agree in size. *)
Definition aligned (s : Selector) : Prop :=
  option_map ncols (modelXBack s) = Some (length (variables s)).

(** Consecutive passes: each starts on the object the previous one left. *)
Fixpoint linked (s : Selector) (tr : list pass) (s' : Selector) : Prop :=
  match tr with
  | [] => s' = s
  | p :: tr' => before p = s /\ linked (after p) tr' s'
  end.

(** The tests under which a pass was entered, on the object it started on:
    some p-value of the stored fit is above the threshold and the stored
    (unadjusted) R-squared is above 0.7. *)
Definition entered_under (c : Q) (p : pass) : Prop :=
  exists r r2,
    results (before p) = Some r /\
    (exists pv, In pv (pvalues r) /\ c < pv) /\
    Rsquared (before p) = Some r2 /\ Rsquared_floor < r2.

(** The pass removed the first position of the largest stored p-value, from
    the registry and from the working matrix. *)
Definition removes_first_argmax (p : pass) : Prop :=
  exists r xb,
    results (before p) = Some r /\
    first_argmax (pvalues r) (indexRemove p) /\
    (indexRemove p < length (variables (before p)))%nat /\
    variables (after p) = delete_at (indexRemove p) (variables (before p)) /\
    modelXBack (before p) = Some xb /\
    (indexRemove p < ncols xb)%nat /\
    modelXBack (after p) =
      Some (mk_ndarray (nrows xb) (delete_at (indexRemove p) (columns xb))).

(** The column of [df] labelled [v] (the first one). *)
Definition column_of (df : DataFrame) (v : string) : list Q :=
  hd [] (columns_of df v).

(** A computation that never reports exhausted fuel. *)
Definition fuel_free {A : Type} (m : M A) : Prop :=
  forall s, fst (m s) <> OutOfFuel.

(** The test [x == None or y == None] as a value: true, false, or the
    error of taking the truth value of an array. *)
Definition none_test (y : option (list Q)) (x : option ndarray) : exn + bool :=
  match eq_None ndarray_size x with
  | inl e => inl e
  | inr true => inr true
  | inr false => eq_None (@length Q) y
  end.

(** The data [modelOLS(y, x)] fits: the arguments when the test is false,
    the stored target and full matrix when it is true. *)
Definition fit_data (stored : bool) (y : option (list Q)) (x : option ndarray)
           (s : Selector) : list Q * ndarray :=
  match stored, x, y with
  | false, Some x', Some y' => (y', x')
  | _, _, _ => (modelY s, modelX s)
  end.

(** The object [backwardSelect] starts its loop on. *)
Definition loop_entry (s : Selector) : Selector :=
  set_modelXBack (Some (copy (modelX s))) s.

(** The number of passes the loop can make from counter [it]. *)
Definition passes_left (maxSteps iteration : Z) : nat :=
  Z.to_nat (maxSteps + 1 - iteration).

(** Construction followed by [modelOLS()], the fit of the full model. *)
Definition construct_and_fit (sm : statsmodels)
           (exog : DataFrame) (endog : list Q) : Selector :=
  snd (modelOLS sm None None (init_attributes exog endog)).

(** ** Concrete data used to run the methods *)

(** A solver given by a table: the entry with as many coefficients as the
    matrix has columns. *)
Definition fit_by_width (table : list RegressionResults) (m : OLS)
  : exn + RegressionResults :=
  match find (fun r => (length (params r) =? ncols (exog m))%nat) table with
  | Some r => inr r
  | None => inl ValueError
  end.

(** A stand-in for statsmodels: the constructor accepts every pair and the
    fit is read off the table. *)
Definition stub (table : list RegressionResults) : statsmodels :=
  mk_statsmodels (fun y x => inr (mk_OLS y x)) (fit_by_width table).

(** Five observations of three predictors, fitted without a constant. *)
Definition exog3 : DataFrame :=
  mk_DataFrame 5 [ ("X1", [1; 2; 3; 4; 2]);
                   ("X2", [2; 1; 0; 1; 3]);
                   ("X3", [0; 1; 1; 3; 1]) ].
Definition endog5 : list Q := [3; 5; 6; 11; 9].

(** The last two of these predictors alone. *)
Definition exog_pair : DataFrame :=
  mk_DataFrame 5 [ ("X2", [2; 1; 0; 1; 3]); ("X3", [0; 1; 1; 3; 1]) ].

(** One observation of two predictors: the only shape on which the refit
    of a pass goes through. *)
Definition exog_row : DataFrame := mk_DataFrame 1 [ ("A", [2]); ("B", [3]) ].
Definition endog_row : list Q := [7].

(** Three columns: p-values 0.8, 0.03, 0.2 and adjusted R-squared 0.85;
    two columns: p-values 0.02, 0.04 and adjusted R-squared 0.82. *)
Definition scenario_fit : statsmodels :=
  stub [ mk_results [1; 2; 3] [8 # 10; 3 # 100; 2 # 10] (94 # 100) (85 # 100);
         mk_results [2; 3] [2 # 100; 4 # 100] (892 # 1000) (82 # 100) ].

(** As above, with R-squared 0.8 and adjusted R-squared 0.5 for three
    columns. *)
Definition lowadj_fit : statsmodels :=
  stub [ mk_results [1; 2; 3] [8 # 10; 3 # 100; 2 # 10] (8 # 10) (5 # 10);
         mk_results [2; 3] [2 # 100; 4 # 100] (76 # 100) (6 # 10) ].

(** Every model keeps a p-value above 0.05 and a high R-squared. *)
Definition weak_fit : statsmodels :=
  stub [ mk_results [1; 2; 3] [9 # 10; 8 # 10; 6 # 10] (96 # 100) (9 # 10);
         mk_results [2; 3] [7 # 10; 5 # 10] (94 # 100) (9 # 10);
         mk_results [3] [4 # 10] (92 # 100) (9 # 10);
         mk_results [] [] (0 # 1) (0 # 1) ].

(** Three columns give R-squared 0.6, at most 0.7. *)
Definition flat_fit : statsmodels :=
  stub [ mk_results [1; 2; 3] [8 # 10; 3 # 100; 2 # 10] (6 # 10) (0 # 1);
         mk_results [2; 3] [2 # 100; 4 # 100] (55 # 100) (25 # 100) ].

(** Two predictors tie for the largest p-value. *)
Definition tie_fit : statsmodels :=
  stub [ mk_results [1; 2; 3] [9 # 10; 9 # 10; 1 # 10] (94 # 100) (85 # 100);
         mk_results [2; 3] [1 # 100; 2 # 100] (892 # 1000) (82 # 100) ].

(** Two columns: p-values 0.8, 0.03; one column: p-value 0.02. *)
Definition row_fit : statsmodels :=
  stub [ mk_results [1; 2] [8 # 10; 3 # 100] (9 # 10) (85 # 100);
         mk_results [2] [2 # 100] (88 # 100) (8 # 10) ].

(** As above, with R-squared 0.8 and adjusted R-squared 0.5 for two
    columns. *)
Definition row_lowadj_fit : statsmodels :=
  stub [ mk_results [1; 2] [8 # 10; 3 # 100] (8 # 10) (5 # 10);
         mk_results [2] [2 # 100] (75 # 100) (4 # 10) ].

(** The object after construction and the full fit, for each solver. *)
Definition scenario_selector : Selector := construct_and_fit scenario_fit exog3 endog5.
Definition lowadj_selector : Selector := construct_and_fit lowadj_fit exog3 endog5.
Definition weak_selector : Selector := construct_and_fit weak_fit exog3 endog5.
Definition tie_selector : Selector := construct_and_fit tie_fit exog3 endog5.
Definition flat_selector : Selector := construct_and_fit flat_fit exog3 endog5.
Definition pair_selector : Selector := construct_and_fit scenario_fit exog_pair endog5.
Definition row_selector : Selector := construct_and_fit row_fit exog_row endog_row.
Definition row_lowadj_selector : Selector :=
  construct_and_fit row_lowadj_fit exog_row endog_row.
Definition row_weak_selector : Selector := construct_and_fit weak_fit exog_row endog_row.

(** The passes of a returning call, and none otherwise. *)
Definition passes_of (r : outcome (list pass) * Selector) : list pass :=
  match fst r with
  | Done tr => tr
  | _ => []
  end.

(** One complete [backwardSelect()] on the one-row object: its passes and
    the object it leaves. *)
Definition row_passes : list pass :=
  passes_of (backwardSelect_passes row_fit 20 default_criteria
                                   default_maxSteps row_selector).
Definition row_selected : Selector :=
  snd (backwardSelect row_fit 20 default_criteria default_maxSteps row_selector).

(** The object left by [backwardSelect()] on the five-row scenario, and by
    a second call after it. *)
Definition scenario_after_first : Selector :=
  snd (backwardSelect scenario_fit 20 default_criteria default_maxSteps
                      scenario_selector).
Definition scenario_after_second : Selector :=
  snd (backwardSelect scenario_fit 20 default_criteria default_maxSteps
                      scenario_after_first).

(** The spec's name for the error of using an object that was never fit. *)
Definition NotFitted : exn := PyExc "NotFitted".

(** Prediction inputs: the surviving columns in another order, and the same
    with an unused column. *)
Definition test_survivors : DataFrame :=
  mk_DataFrame 2 [ ("X3", [5; 7]); ("X2", [1; 4]) ].

(** A prediction input for the one-row object after selection. *)
Definition test_row : DataFrame := mk_DataFrame 2 [ ("B", [5; 7]) ].

(** ** Vocabulary of the further properties *)

(** [subseq l l'] : [l] is [l'] with some elements left out, order kept. *)
Inductive subseq {A : Type} : list A -> list A -> Prop :=
| subseq_nil : subseq [] []
| subseq_skip x l l' : subseq l l' -> subseq l (x :: l')
| subseq_keep x l l' : subseq l l' -> subseq (x :: l) (x :: l').

(** The identifiers of the registry laid over the columns of the working
    matrix, position by position. *)
Definition labelled_columns (s : Selector) : option (list (string * list Q)) :=
  option_map (fun x => combine (variables s) (columns x)) (modelXBack s).


(** The predictor matrix and the target given at construction. *)
Definition same_source (s s' : Selector) : Prop :=
  modelX s' = modelX s /\ modelY s' = modelY s.

(** A property of the object that a computation keeps, whatever its
    outcome. *)
Definition preserves {A : Type} (P : Selector -> Prop) (m : M A) : Prop :=
  forall s, P s -> P (snd (m s)).

(** What a pass has done to the object once the position is removed and
    before a refit is stored: the registry and the working matrix are the
    shrunk ones, the stored fit and its scalars are the previous ones. *)
Definition removal_kept (s : Selector) (vs : list string) (x : ndarray)
           (s' : Selector) : Prop :=
  variables s' = vs /\ modelXBack s' = Some x /\
  results s' = results s /\ coef s' = coef s /\
  Rsquared s' = Rsquared s /\ Rsquared_adj s' = Rsquared_adj s.

(** The registry lies over the working matrix, column by column, as a part
    of the labelled columns [L0] in their order. *)
Definition labels_over (L0 : list (string * list Q)) (s : Selector) : Prop :=
  aligned s /\
  exists L, labelled_columns s = Some L /\ subseq L L0.

(** The position an index [j] of the list after [del l[i]] had before. *)
Definition shifted (i j : nat) : nat := if (j <? i)%nat then j else S j.

(** numpy's error of a singular or non-convergent decomposition. *)
Definition LinAlgError : exn := PyExc "LinAlgError".

(** A solver that fails on a single column and otherwise returns p-values
    0.9 and R-squared 0.9. *)
Definition brittle_fit : statsmodels :=
  mk_statsmodels
    (fun y x => inr (mk_OLS y x))
    (fun m => if (ncols (exog m) =? 1)%nat then inl LinAlgError
              else inr (mk_results (repeat 1 (ncols (exog m)))
                                   (repeat (9 # 10) (ncols (exog m)))
                                   (9 # 10) (8 # 10))).

Definition row_brittle_selector : Selector :=
  construct_and_fit brittle_fit exog_row endog_row.

(** An input without a column for X3. *)
Definition test_missing : DataFrame :=
  mk_DataFrame 2 [ ("X1", [9; 9]); ("X2", [1; 4]) ].

(** * Reasoning about computations *)

Lemma bind_Done {A B : Type} (m : M A) (k : A -> M B) s b s' :
  bind m k s = (Done b, s') ->
  exists a s1, m s = (Done a, s1) /\ k a s1 = (Done b, s').
Proof.
  unfold bind. destruct (m s) as [[a|e|] s1]; intros H; try discriminate.
  exists a, s1. split; [reflexivity | exact H].
Qed.

Lemma lift_Done {A : Type} (r : exn + A) s a s' :
  lift r s = (Done a, s') -> r = inr a /\ s' = s.
Proof.
  destruct r as [e|a0]; cbn; intros H; inversion H; subst; auto.
Qed.

Lemma attr_Done {A B : Type} (f : Selector -> option A) (g : A -> B) s b s' :
  attr f g s = (Done b, s') -> exists a, f s = Some a /\ b = g a /\ s' = s.
Proof.
  unfold attr. destruct (f s) as [a|]; intros H; inversion H; subst; eauto.
Qed.

Lemma gets_Done {A : Type} (f : Selector -> A) s a s' :
  gets f s = (Done a, s') -> a = f s /\ s' = s.
Proof. unfold gets. intros H; inversion H; auto. Qed.

Lemma modify_Done (f : Selector -> Selector) s u s' :
  modify f s = (Done u, s') -> s' = f s.
Proof. unfold modify. intros H; inversion H; auto. Qed.

Lemma ret_Done {A : Type} (a : A) s b s' :
  ret a s = (Done b, s') -> b = a /\ s' = s.
Proof. unfold ret. intros H; inversion H; auto. Qed.

(** Peel one primitive off a computation known to return. *)
Ltac peel H :=
  match type of H with
  | bind _ _ _ = (Done _, _) =>
      let a := fresh "a" in let s := fresh "s" in let H1 := fresh "H" in
      apply bind_Done in H; destruct H as (a & s & H1 & H); peel H1
  | lift _ _ = (Done _, _) =>
      let E := fresh "E" in apply lift_Done in H; destruct H as (E & ->)
  | attr _ _ _ = (Done _, _) =>
      let a := fresh "a" in let E := fresh "E" in
      apply attr_Done in H; destruct H as (a & E & -> & ->)
  | gets _ _ = (Done _, _) => apply gets_Done in H; destruct H as (-> & ->)
  | get _ = (Done _, _) => apply (gets_Done (fun s => s)) in H; destruct H as (-> & ->)
  | modify _ _ = (Done _, _) => apply modify_Done in H; subst
  | ret _ _ = (Done _, _) => apply ret_Done in H; destruct H as (-> & ->)
  | _ => idtac
  end.

(** ** Arithmetic of the primitives *)

Lemma Qgt_bool_iff (a b : Q) : Qgt_bool a b = true <-> b < a.
Proof.
  unfold Qgt_bool. rewrite negb_true_iff. split.
  - intros H. apply Qnot_le_lt. intros Hle.
    apply Qle_bool_iff in Hle. congruence.
  - intros H. destruct (Qle_bool a b) eqn:E; [|reflexivity].
    apply Qle_bool_iff in E. exfalso. exact (Qlt_not_le _ _ H E).
Qed.

Lemma Qgt_bool_false_iff (a b : Q) : Qgt_bool a b = false <-> a <= b.
Proof.
  unfold Qgt_bool. rewrite negb_false_iff. apply Qle_bool_iff.
Qed.

(** [sum(pvalues > criteria) != 0] says that some p-value is above the
    threshold. *)
Lemma sum_gt_nonzero (pv : list Q) (c : Q) :
  sum_gt pv c <> 0%nat <-> exists p, In p pv /\ c < p.
Proof.
  unfold sum_gt. induction pv as [|q pv IH]; cbn.
  - split; [congruence | intros (p & [] & _)].
  - destruct (Qgt_bool q c) eqn:E.
    + split; [|intros _; discriminate].
      intros _. exists q. split; [now left | now apply Qgt_bool_iff].
    + cbn. rewrite IH. split.
      * intros (p & Hin & Hp). exists p. split; [now right | exact Hp].
      * intros (p & [->|Hin] & Hp).
        -- apply Qgt_bool_iff in Hp. congruence.
        -- exists p. split; assumption.
Qed.

Lemma delete_at_length {A : Type} (i : nat) (l : list A) :
  (i < length l)%nat -> S (length (delete_at i l)) = length l.
Proof.
  intros H. unfold delete_at.
  rewrite length_app, length_firstn, length_skipn. lia.
Qed.

Lemma list_del_inr {A : Type} (l l' : list A) (i : nat) :
  list_del l i = inr l' -> (i < length l)%nat /\ l' = delete_at i l.
Proof.
  unfold list_del. destruct (i <? length l)%nat eqn:E; intros H; inversion H.
  apply Nat.ltb_lt in E. auto.
Qed.

Lemma np_delete_inr (a : option ndarray) (x : ndarray) (i : nat) :
  np_delete a i = inr x ->
  exists a0, a = Some a0 /\ (i < ncols a0)%nat /\
             x = mk_ndarray (nrows a0) (delete_at i (columns a0)).
Proof.
  unfold np_delete. destruct a as [a0|]; [|discriminate].
  destruct (i <? ncols a0)%nat eqn:E; intros H; inversion H.
  apply Nat.ltb_lt in E. eauto.
Qed.

(** *** The builtin [max] and the first position holding it *)

Lemma fold_max_spec (xs : list Q) (x : Q) :
  let m := fold_left max_step xs x in
  In m (x :: xs) /\ forall y, In y (x :: xs) -> y <= m.
Proof.
  revert x. induction xs as [|z xs IH]; intros x; cbn.
  - split; [now left|]. intros y [->|[]]. apply Qle_refl.
  - specialize (IH (max_step x z)). cbn in IH. destruct IH as [Hin Hle].
    split.
    + destruct Hin as [Hm|Hm]; [|now right; right].
      rewrite <- Hm. unfold max_step.
      destruct (Qgt_bool z x); [right; now left | now left].
    + intros y Hy.
      assert (Hstep : x <= max_step x z /\ z <= max_step x z).
      { unfold max_step. destruct (Qgt_bool z x) eqn:E.
        - apply Qgt_bool_iff in E. split; [now apply Qlt_le_weak | apply Qle_refl].
        - apply Qgt_bool_false_iff in E. split; [apply Qle_refl | exact E]. }
      destruct Hstep as [Hx Hz].
      destruct Hy as [->|[->|Hy]].
      * eapply Qle_trans; [exact Hx|]. apply Hle. now left.
      * eapply Qle_trans; [exact Hz|]. apply Hle. now left.
      * apply Hle. now right.
Qed.

Lemma py_max_spec (l : list Q) (m : Q) :
  py_max l = inr m -> In m l /\ forall y, In y l -> y <= m.
Proof.
  destruct l as [|x xs]; cbn; [discriminate|].
  intros H. inversion H; subst. apply (fold_max_spec xs x).
Qed.

Lemma where_eq_from_head (k : nat) (pv : list Q) (m : Q) (i : nat) (rest : list nat) :
  where_eq_from k pv m = i :: rest ->
  (k <= i)%nat /\ (i - k < length pv)%nat /\ nth (i - k) pv 0 == m /\
  forall j, (j < i - k)%nat -> ~ nth j pv 0 == m.
Proof.
  revert k. induction pv as [|p pv IH]; intros k; cbn; [discriminate|].
  destruct (Qeq_bool p m) eqn:E.
  - intros H. inversion H; subst. rewrite Nat.sub_diag.
    repeat split; try lia. now apply Qeq_bool_iff. 
  - intros H. apply IH in H. destruct H as (Hk & Hlen & Hnth & Hfirst).
    replace (i - k)%nat with (S (i - S k)) by lia.
    repeat split; try lia; [exact Hnth|].
    intros [|j] Hj.
    + cbn. intros Heq. apply Qeq_bool_iff in Heq. congruence.
    + cbn. apply Hfirst. lia.
Qed.

Lemma first_index_is_argmax (pv : list Q) (m : Q) (i : nat) :
  py_max pv = inr m -> item0 (np_where_eq pv m) = inr i -> first_argmax pv i.
Proof.
  intros Hmax Hitem. apply py_max_spec in Hmax. destruct Hmax as [_ Hle].
  unfold np_where_eq in Hitem.
  destruct (where_eq_from 0 pv m) as [|i0 rest] eqn:W; cbn in Hitem; [discriminate|].
  inversion Hitem; subst i0.
  apply where_eq_from_head in W. rewrite Nat.sub_0_r in W.
  destruct W as (_ & Hlen & Hnth & Hfirst).
  repeat split.
  - exact Hlen.
  - intros j Hj. rewrite Hnth. apply Hle. now apply nth_In.
  - intros j Hj. rewrite Hnth.
    assert (Hjle : nth j pv 0 <= m) by (apply Hle; apply nth_In; lia).
    apply Qle_lteq in Hjle. destruct Hjle as [Hlt|Heq]; [exact Hlt|].
    exfalso. exact (Hfirst j Hj Heq).
Qed.

(** A non-empty sequence always has a first position holding its maximum. *)
Lemma where_eq_from_In (k : nat) (pv : list Q) (m : Q) :
  In m pv -> where_eq_from k pv m <> [].
Proof.
  revert k. induction pv as [|p pv IH]; intros k; cbn; [intros []|].
  intros [->|Hin].
  - rewrite (proj2 (Qeq_bool_iff m m) (Qeq_refl m)). discriminate.
  - destruct (Qeq_bool p m); [discriminate | now apply IH].
Qed.

(** * Facts about the methods *)

Section MethodFacts.

Variable sm : statsmodels.

Lemma either_is_None_eval y x s :
  either_is_None y x s = lift (none_test y x) s.
Proof.
  unfold either_is_None, none_test, bind.
  destruct (eq_None ndarray_size x) as [e|[|]]; cbn; try reflexivity.
Qed.

(** [modelOLS] in one step: the test of its arguments, then the
    constructor, then the fit; an error at any of the three ends the call,
    and only an error of the fit leaves a new model object behind. *)
Lemma modelOLS_eval y x s :
  modelOLS sm y x s =
  match none_test y x with
  | inl e => (Raise e, s)
  | inr stored =>
      match sm_OLS sm (fst (fit_data stored y x s)) (snd (fit_data stored y x s)) with
      | inl e => (Raise e, s)
      | inr m =>
          match OLS_fit sm m with
          | inl e => (Raise e, set_model (Some m) s)
          | inr r => (Done tt,
                      mk_selector (modelX s) (modelY s) (variables s)
                                  (modelXBack s) (Some m) (Some r)
                                  (Some (params r)) (Some (rsquared r))
                                  (Some (rsquared_adj r)))
          end
      end
  end.
Proof.
  unfold modelOLS. unfold bind at 1. rewrite either_is_None_eval.
  destruct (none_test y x) as [e|stored]; cbn [lift raise ret]; [reflexivity|].
  unfold bind at 1. unfold get. unfold bind at 1. fold (fit_data stored y x s).
  destruct (sm_OLS sm (fst (fit_data stored y x s)) (snd (fit_data stored y x s)))
    as [e|m]; cbn [lift raise ret]; [reflexivity|].
  unfold bind, modify, attr, lift. cbn.
  destruct (OLS_fit sm m) as [e|r]; reflexivity.
Qed.

(** The test is false only for a one-element matrix with a one-element
    target. *)
Lemma none_test_given y x :
  none_test (Some y) (Some x) =
  if (ndarray_size x =? 1)%nat
  then (if (length y =? 1)%nat then inr false else inl ValueError)
  else inl ValueError.
Proof.
  unfold none_test, eq_None, array_eq_None.
  destruct (ndarray_size x =? 1)%nat; reflexivity.
Qed.

(** What [modelOLS(y, x)] with both arguments given leaves behind when it
    returns. *)
Lemma modelOLS_given y x s u s' :
  modelOLS sm (Some y) (Some x) s = (Done u, s') ->
  ndarray_size x = 1%nat /\ length y = 1%nat /\
  exists m r, sm_OLS sm y x = inr m /\ OLS_fit sm m = inr r /\
    s' = mk_selector (modelX s) (modelY s) (variables s) (modelXBack s)
           (Some m) (Some r) (Some (params r))
           (Some (rsquared r)) (Some (rsquared_adj r)).
Proof.
  rewrite modelOLS_eval, none_test_given.
  destruct (ndarray_size x =? 1)%nat eqn:Ex; [|discriminate].
  destruct (length y =? 1)%nat eqn:Ey; [|discriminate].
  apply Nat.eqb_eq in Ex. apply Nat.eqb_eq in Ey. cbn [fit_data fst snd].
  destruct (sm_OLS sm y x) as [e|m] eqn:Em; [discriminate|].
  destruct (OLS_fit sm m) as [e|r] eqn:Er; [discriminate|].
  intros H. inversion H; subst. repeat split; try assumption.
  exists m, r. repeat split; assumption.
Qed.

(** [modelOLS(y, x)] on a matrix of more than one element raises
    ValueError before anything is built or stored. *)
Lemma modelOLS_raises_on_array y x s :
  (1 < ndarray_size x)%nat ->
  modelOLS sm y (Some x) s = (Raise ValueError, s).
Proof.
  intros Hsize. rewrite modelOLS_eval.
  unfold none_test, eq_None, array_eq_None.
  replace (ndarray_size x =? 1)%nat with false; [reflexivity|].
  symmetry. apply Nat.eqb_neq. lia.
Qed.

(** [modelOLS()] fits the full matrix against the target. *)
Lemma modelOLS_default s :
  modelOLS sm None None s =
  match sm_OLS sm (modelY s) (modelX s) with
  | inl e => (Raise e, s)
  | inr m =>
      match OLS_fit sm m with
      | inl e => (Raise e, set_model (Some m) s)
      | inr r => (Done tt,
                  mk_selector (modelX s) (modelY s) (variables s) (modelXBack s)
                    (Some m) (Some r) (Some (params r))
                    (Some (rsquared r)) (Some (rsquared_adj r)))
      end
  end.
Proof. rewrite modelOLS_eval. reflexivity. Qed.

Lemma removeColumn_Done i s u s' :
  _removeColumn i s = (Done u, s') ->
  exists vs x, list_del (variables s) i = inr vs /\
               np_delete (modelXBack s) i = inr x /\
               s' = set_modelXBack (Some x) (set_variables vs s).
Proof.
  unfold _removeColumn. intros H.
  repeat (peel H; cbn in * ).
  eauto.
Qed.

Lemma removeColumn_eval i s vs x :
  list_del (variables s) i = inr vs ->
  np_delete (modelXBack s) i = inr x ->
  _removeColumn i s = (Done tt, set_modelXBack (Some x) (set_variables vs s)).
Proof.
  intros Hdel Hnp. unfold _removeColumn, bind, gets, modify.
  rewrite Hdel. cbn. rewrite Hnp. reflexivity.
Qed.

Lemma first_index_of_max_Done s i s' :
  first_index_of_max s = (Done i, s') ->
  exists r m, results s = Some r /\ py_max (pvalues r) = inr m /\
              item0 (np_where_eq (pvalues r) m) = inr i /\ s' = s.
Proof.
  unfold first_index_of_max. intros H.
  repeat (peel H; cbn in * ).
  match goal with
  | E1 : results s = Some ?a, E2 : results s = Some ?b |- _ =>
      rewrite E1 in E2; inversion E2; subst
  end.
  eauto 8.
Qed.

(** One pass in one step, once the position and the two removals are
    known: the refit decides the outcome, on the object already shrunk. *)
Lemma loop_pass_eval s i vs x :
  first_index_of_max s = (Done i, s) ->
  list_del (variables s) i = inr vs ->
  np_delete (modelXBack s) i = inr x ->
  loop_pass sm s =
  match modelOLS sm (Some (modelY s)) (Some x)
                 (set_modelXBack (Some x) (set_variables vs s)) with
  | (Done _, s1) => (Done (mk_pass s i s1), s1)
  | (Raise e, s1) => (Raise e, s1)
  | (OutOfFuel, s1) => (OutOfFuel, s1)
  end.
Proof.
  intros Hi Hdel Hnp. unfold loop_pass.
  unfold bind at 1. unfold get. unfold bind at 1. rewrite Hi.
  unfold bind at 1. rewrite (removeColumn_eval i s vs x Hdel Hnp).
  unfold bind at 1 2. unfold gets. cbn [modelY modelXBack set_modelXBack set_variables].
  unfold bind at 1.
  destruct (modelOLS sm (Some (modelY s)) (Some x)
                     (set_modelXBack (Some x) (set_variables vs s)))
    as [[u|e|] s1]; reflexivity.
Qed.

(** One pass that returns, end to end: the shrunk matrix and the target
    have one element each, and both calls of the solver returned. *)
Lemma loop_pass_Done s p s1 :
  loop_pass sm s = (Done p, s1) ->
  before p = s /\ after p = s1 /\
  exists r mx vs x m r',
    results s = Some r /\
    py_max (pvalues r) = inr mx /\
    item0 (np_where_eq (pvalues r) mx) = inr (indexRemove p) /\
    list_del (variables s) (indexRemove p) = inr vs /\
    np_delete (modelXBack s) (indexRemove p) = inr x /\
    ndarray_size x = 1%nat /\ length (modelY s) = 1%nat /\
    sm_OLS sm (modelY s) x = inr m /\
    OLS_fit sm m = inr r' /\
    s1 = refitted s vs x m r'.
Proof.
  unfold loop_pass. intros H.
  peel H. peel H.
  apply first_index_of_max_Done in H0.
  destruct H0 as (r & mx & Hr & Hmax & Hitem & ->).
  peel H. apply removeColumn_Done in H0.
  destruct H0 as (vs & x & Hdel & Hnp & ->).
  peel H. peel H. peel H.
  cbn [modelXBack modelY set_modelXBack set_variables] in H0.
  apply modelOLS_given in H0.
  destruct H0 as (Hsx & Hsy & m & r' & Hnew & Hfit & ->).
  peel H. peel H. cbn. repeat split.
  exists r, mx, vs, x, m, r'. repeat split; assumption.
Qed.

(** The loop condition reads the object and never writes it. *)
Lemma loop_test_state c mx it s : snd (loop_test c mx it s) = s.
Proof.
  unfold loop_test, bind, attr, gets, ret, raise.
  destruct (results s) as [r|]; cbn; [|reflexivity].
  destruct (negb (sum_gt (pvalues r) c =? 0)%nat); cbn; [|reflexivity].
  destruct (mx >=? it)%Z; cbn; [|reflexivity].
  destruct (Rsquared s); reflexivity.
Qed.

(** The loop is entered exactly when the three tests of the source pass. *)
Lemma loop_test_true c mx it s s' :
  loop_test c mx it s = (Done true, s') <->
  s' = s /\
  exists r r2, results s = Some r /\ sum_gt (pvalues r) c <> 0%nat /\
               (it <= mx)%Z /\ Rsquared s = Some r2 /\ Rsquared_floor < r2.
Proof.
  unfold loop_test, bind, attr, gets, ret, raise.
  destruct (results s) as [r|]; cbn.
  2:{ split; [discriminate | intros (_ & r & r2 & Hr & _); discriminate]. }
  destruct (sum_gt (pvalues r) c =? 0)%nat eqn:Esum; cbn.
  { apply Nat.eqb_eq in Esum. split; [discriminate|].
    intros (_ & r0 & r2 & Hr & Hn & _). inversion Hr; subst. contradiction. }
  apply Nat.eqb_neq in Esum.
  destruct (mx >=? it)%Z eqn:Eit; cbn.
  2:{ split; [discriminate|]. intros (_ & r0 & r2 & _ & _ & Hle & _).
      rewrite Z.geb_leb in Eit. apply Z.leb_gt in Eit. lia. }
  rewrite Z.geb_leb in Eit. apply Z.leb_le in Eit.
  destruct (Rsquared s) as [r2|]; cbn.
  2:{ split; [discriminate | intros (_ & r0 & r2 & _ & _ & _ & Hr2 & _); discriminate]. }
  split.
  - intros H. inversion H; subst. split; [reflexivity|].
    exists r, r2. repeat split; auto. now apply Qgt_bool_iff.
  - intros (-> & r0 & r3 & Hr & _ & _ & Hr2 & Hgt).
    inversion Hr2; subst. apply Qgt_bool_iff in Hgt. rewrite Hgt. reflexivity.
Qed.

(** When the R-squared is at most 0.7, or no p-value is above the
    threshold, the loop condition is false. *)
Lemma loop_test_low_Rsquared c mx it s r r2 :
  results s = Some r -> Rsquared s = Some r2 -> r2 <= Rsquared_floor ->
  loop_test c mx it s = (Done false, s).
Proof.
  intros Hr Hr2 Hle.
  unfold loop_test, bind, attr, gets, ret. rewrite Hr. cbn.
  destruct (negb (sum_gt (pvalues r) c =? 0)%nat); [|reflexivity].
  destruct (mx >=? it)%Z; [|reflexivity].
  rewrite Hr2. cbn. apply Qgt_bool_false_iff in Hle. rewrite Hle. reflexivity.
Qed.

Lemma loop_test_no_pvalue c mx it s r :
  results s = Some r -> (forall p, In p (pvalues r) -> p <= c) ->
  loop_test c mx it s = (Done false, s).
Proof.
  intros Hr Hall.
  unfold loop_test, bind, attr, gets, ret. rewrite Hr. cbn.
  destruct (sum_gt (pvalues r) c =? 0)%nat eqn:E; [reflexivity|].
  apply Nat.eqb_neq in E. apply sum_gt_nonzero in E.
  destruct E as (p & Hin & Hp). exfalso.
  exact (Qlt_not_le _ _ Hp (Hall p Hin)).
Qed.

Lemma while_run fuel c mx it s tr s' :
  backwardSelect_while sm fuel c mx it s = (Done tr, s') ->
  run sm c mx it s tr s'.
Proof.
  revert it s tr s'. induction fuel as [|fuel IH]; intros it s tr s' H; cbn in H.
  - apply bind_Done in H. destruct H as (go & s0 & Ht & H).
    pose proof (loop_test_state c mx it s) as Hs. rewrite Ht in Hs. cbn in Hs. subst s0.
    destruct go; [discriminate|].
    apply ret_Done in H. destruct H as (-> & ->). now constructor.
  - apply bind_Done in H. destruct H as (go & s0 & Ht & H).
    pose proof (loop_test_state c mx it s) as Hs. rewrite Ht in Hs. cbn in Hs. subst s0.
    destruct go.
    + apply bind_Done in H. destruct H as (p & s1 & Hp & H).
      apply bind_Done in H. destruct H as (rest & s2 & Hrest & H).
      apply ret_Done in H. destruct H as (-> & ->).
      econstructor; eauto.
    + apply ret_Done in H. destruct H as (-> & ->). now constructor.
Qed.

(** Every property of passes that is stable along the loop holds of every
    pass the loop performs. *)
Lemma run_Forall (P : pass -> Prop) c mx :
  (forall it s p s1, loop_test c mx it s = (Done true, s) ->
                     loop_pass sm s = (Done p, s1) -> P p) ->
  forall it s tr s', run sm c mx it s tr s' -> Forall P tr.
Proof.
  intros HP it s tr s' Hrun. induction Hrun; constructor; eauto.
Qed.

End MethodFacts.
(** * Termination and counting *)

Lemma fuel_free_bind {A B : Type} (m : M A) (k : A -> M B) :
  fuel_free m -> (forall a, fuel_free (k a)) -> fuel_free (bind m k).
Proof.
  intros Hm Hk s. unfold bind. specialize (Hm s).
  destruct (m s) as [[a|e|] s1]; cbn in *.
  - apply Hk.
  - discriminate.
  - exfalso. now apply Hm.
Qed.

Lemma fuel_free_ret {A : Type} (a : A) : fuel_free (ret a).
Proof. intros s. cbn. discriminate. Qed.

Lemma fuel_free_raise {A : Type} (e : exn) : fuel_free (@raise A e).
Proof. intros s. cbn. discriminate. Qed.

Lemma fuel_free_lift {A : Type} (r : exn + A) : fuel_free (lift r).
Proof. destruct r; intros s; cbn; discriminate. Qed.

Lemma fuel_free_attr {A B : Type} (f : Selector -> option A) (g : A -> B) :
  fuel_free (attr f g).
Proof. intros s. unfold attr. destruct (f s); cbn; discriminate. Qed.

Lemma fuel_free_gets {A : Type} (f : Selector -> A) : fuel_free (gets f).
Proof. intros s. cbn. discriminate. Qed.

Lemma fuel_free_get : fuel_free get.
Proof. intros s. cbn. discriminate. Qed.

Lemma fuel_free_modify (f : Selector -> Selector) : fuel_free (modify f).
Proof. intros s. cbn. discriminate. Qed.

Create HintDb fuel.
#[local] Hint Resolve fuel_free_ret fuel_free_raise fuel_free_lift
  fuel_free_attr fuel_free_gets fuel_free_get fuel_free_modify : fuel.

Ltac fuel_free_tac :=
  repeat first
    [ solve [ auto with fuel ]
    | apply fuel_free_bind; [| intros ? ] ].

Section Counting.

Variable sm : statsmodels.

Lemma fuel_free_modelOLS y x : fuel_free (modelOLS sm y x).
Proof.
  intros s. rewrite modelOLS_eval.
  destruct (none_test y x) as [e|stored]; cbn; [discriminate|].
  destruct (sm_OLS sm _ _) as [e|m]; cbn; [discriminate|].
  destruct (OLS_fit sm m); cbn; discriminate.
Qed.

Lemma fuel_free_removeColumn i : fuel_free (_removeColumn i).
Proof. unfold _removeColumn. fuel_free_tac. Qed.

Lemma fuel_free_loop_test c mx it : fuel_free (loop_test c mx it).
Proof.
  unfold loop_test. apply fuel_free_bind; [auto with fuel|]. intros pv.
  destruct (negb (sum_gt pv c =? 0)%nat); [|auto with fuel].
  destruct (mx >=? it)%Z; [|auto with fuel].
  apply fuel_free_bind; [auto with fuel|]. intros [r|]; auto with fuel.
Qed.

Lemma fuel_free_loop_pass : fuel_free (loop_pass sm).
Proof.
  unfold loop_pass, first_index_of_max.
  pose proof fuel_free_modelOLS. pose proof fuel_free_removeColumn.
  fuel_free_tac.
Qed.

(** With at least [passes_left] units of fuel the loop never runs out:
    it returns or raises. *)
Lemma while_fuel_suffices fuel c mx it :
  (passes_left mx it <= fuel)%nat ->
  fuel_free (backwardSelect_while sm fuel c mx it).
Proof.
  revert it. induction fuel as [|fuel IH]; intros it Hfuel s; cbn.
  - unfold bind.
    destruct (loop_test c mx it s) as [[go|e|] s0] eqn:Ht; cbn.
    + destruct go; cbn; [|discriminate].
      pose proof (loop_test_state c mx it s) as Hs. rewrite Ht in Hs. cbn in Hs. subst s0.
      apply loop_test_true in Ht. destruct Ht as (_ & r & r2 & _ & _ & Hit & _).
      unfold passes_left in Hfuel. lia.
    + discriminate.
    + pose proof (fuel_free_loop_test c mx it s) as H. rewrite Ht in H.
      exfalso. now apply H.
  - unfold bind at 1.
    destruct (loop_test c mx it s) as [[go|e|] s0] eqn:Ht; cbn.
    + destruct go; cbn; [|discriminate].
      apply fuel_free_bind; [apply fuel_free_loop_pass|]. intros p.
      apply fuel_free_bind; [|auto with fuel].
      apply IH. unfold passes_left in *. lia.
    + discriminate.
    + pose proof (fuel_free_loop_test c mx it s) as H. rewrite Ht in H.
      exfalso. now apply H.
Qed.

(** More fuel never changes a result that was reached. *)
Lemma while_fuel_mono fuel fuel' c mx it s tr s' :
  (fuel <= fuel')%nat ->
  backwardSelect_while sm fuel c mx it s = (Done tr, s') ->
  backwardSelect_while sm fuel' c mx it s = (Done tr, s').
Proof.
  revert fuel' it s tr s'. induction fuel as [|fuel IH]; intros fuel' it s tr s' Hle H.
  - cbn in H. unfold bind in H.
    destruct fuel' as [|fuel']; [exact H|]. cbn. unfold bind at 1.
    destruct (loop_test c mx it s) as [[go|e|] s0]; try discriminate.
    destruct go; [discriminate | exact H].
  - destruct fuel' as [|fuel']; [lia|].
    cbn in H |- *. unfold bind at 1 in H. unfold bind at 1.
    destruct (loop_test c mx it s) as [[go|e|] s0]; try discriminate.
    destruct go; [|exact H].
    unfold bind at 1 in H. unfold bind at 1.
    destruct (loop_pass sm s0) as [[p|e|] s1]; try discriminate.
    unfold bind at 1 in H. unfold bind at 1.
    destruct (backwardSelect_while sm fuel c mx (it + 1) s1) as [[rest|e|] s2] eqn:E;
      try discriminate.
    rewrite (IH fuel' (it + 1)%Z s1 rest s2); [exact H | lia | exact E].
Qed.

(** The loop makes at most [maxSteps + 1 - iteration] passes. *)
Lemma run_pass_bound c mx it s tr s' :
  run sm c mx it s tr s' -> (length tr <= passes_left mx it)%nat.
Proof.
  intros Hrun. induction Hrun; cbn; [lia|].
  apply loop_test_true in H. destruct H as (_ & r & r2 & _ & _ & Hit & _).
  unfold passes_left in *. lia.
Qed.

(** Each pass takes exactly one identifier out of the registry. *)
Lemma loop_pass_registry s p s1 :
  loop_pass sm s = (Done p, s1) ->
  S (length (variables s1)) = length (variables s).
Proof.
  intros H. apply loop_pass_Done in H.
  destruct H as (_ & _ & r & m & vs & x & m' & r' & _ & _ & _ & Hdel & _ & _ & _ & _ & _ & ->).
  apply list_del_inr in Hdel. destruct Hdel as [Hlt ->]. cbn.
  now apply delete_at_length.
Qed.

Lemma run_registry c mx it s tr s' :
  run sm c mx it s tr s' ->
  (length (variables s') + length tr = length (variables s))%nat.
Proof.
  intros Hrun. induction Hrun; cbn; [lia|].
  apply loop_pass_registry in H0. lia.
Qed.

(** A pass keeps registry and working matrix the same size when they were. *)
Lemma loop_pass_aligned s p s1 :
  loop_pass sm s = (Done p, s1) -> aligned s -> aligned s1.
Proof.
  intros H Hal. apply loop_pass_Done in H.
  destruct H as (_ & _ & r & m & vs & x & m' & r' & _ & _ & _ & Hdel & Hnp & _ & _ & _ & _ & ->).
  apply list_del_inr in Hdel. destruct Hdel as [Hlt ->].
  apply np_delete_inr in Hnp. destruct Hnp as (a0 & Ha0 & Hlt' & ->).
  unfold aligned in *. rewrite Ha0 in Hal. cbn in *. inversion Hal as [Hn].
  f_equal. unfold ncols. cbn.
  pose proof (delete_at_length _ _ Hlt). pose proof (delete_at_length _ _ Hlt').
  unfold ncols in *. lia.
Qed.

Lemma run_aligned c mx it s tr s' :
  run sm c mx it s tr s' -> aligned s ->
  aligned s' /\ Forall (fun p => aligned (before p) /\ aligned (after p)) tr.
Proof.
  intros Hrun. induction Hrun; intros Hal; [split; [exact Hal | constructor]|].
  pose proof (loop_pass_aligned _ _ _ H0 Hal) as Hal1.
  destruct (IHHrun Hal1) as [Hend Hall]. split; [exact Hend|].
  constructor; [|exact Hall].
  apply loop_pass_Done in H0. destruct H0 as (-> & -> & _). split; assumption.
Qed.

(** On an object fresh from the constructor, the first statement of
    [backwardSelect] makes registry and working matrix agree. *)
Lemma init_aligned (exog : DataFrame) (endog : list Q) (s : Selector) :
  modelX s = values exog -> variables s = columns_values exog ->
  aligned (loop_entry s).
Proof.
  intros HX Hv. unfold aligned, loop_entry. cbn. rewrite HX, Hv.
  unfold copy, ncols, values, columns_values. cbn.
  now rewrite !length_map.
Qed.

Lemma backwardSelect_passes_run fuel c mx s tr s' :
  backwardSelect_passes sm fuel c mx s = (Done tr, s') ->
  run sm c mx 0%Z (loop_entry s) tr s'.
Proof.
  unfold backwardSelect_passes, backwardSelect_init. intros H.
  peel H. peel H0. now apply while_run in H.
Qed.

Lemma run_linked c mx it s tr s' :
  run sm c mx it s tr s' -> linked s tr s'.
Proof.
  intros Hrun. induction Hrun; cbn; [reflexivity|].
  apply loop_pass_Done in H0. destruct H0 as (-> & -> & _). split; auto.
Qed.

(** [backwardSelect] returns or raises once the fuel covers [maxSteps + 1]
    passes, and a returning call made at most that many passes. *)
Lemma backwardSelect_terminates fuel c mx s :
  (passes_left mx 0 <= fuel)%nat ->
  fst (backwardSelect sm fuel c mx s) <> OutOfFuel.
Proof.
  intros Hfuel. unfold backwardSelect, backwardSelect_passes, backwardSelect_init.
  revert s. change (fuel_free
    ((x <- gets modelX;; modify (set_modelXBack (Some (copy x)));;
      backwardSelect_while sm fuel c mx 0);; ret tt)).
  pose proof (while_fuel_suffices fuel c mx 0%Z Hfuel).
  fuel_free_tac.
Qed.

Lemma backwardSelect_pass_bound fuel c mx s tr s' :
  backwardSelect_passes sm fuel c mx s = (Done tr, s') ->
  (length tr <= passes_left mx 0)%nat /\
  (length (variables s') + length tr = length (variables s))%nat.
Proof.
  intros H. apply backwardSelect_passes_run in H. split.
  - eapply run_pass_bound; eassumption.
  - apply run_registry in H. exact H.
Qed.

End Counting.

(** * Column selection by label *)

Lemma filter_label_notin (v : string) (l : list (string * list Q)) :
  ~ In v (map fst l) -> filter (fun c => label_eqb (fst c) v) l = [].
Proof.
  induction l as [|a l IH]; cbn; [reflexivity|]. intros Hn.
  destruct (label_eqb (fst a) v) eqn:E.
  - apply String.eqb_eq in E. exfalso. apply Hn. now left.
  - apply IH. intros Hin. apply Hn. now right.
Qed.

Lemma filter_label_in (v : string) (l : list (string * list Q)) :
  In v (map fst l) -> filter (fun c => label_eqb (fst c) v) l <> [].
Proof.
  induction l as [|a l IH]; cbn; [intros []|]. intros [Ha|Hin].
  - unfold label_eqb. rewrite Ha, String.eqb_refl. discriminate.
  - destruct (label_eqb (fst a) v); [discriminate | now apply IH].
Qed.

Lemma filter_label_le1 (v : string) (l : list (string * list Q)) :
  NoDup (map fst l) ->
  (length (filter (fun c => label_eqb (fst c) v) l) <= 1)%nat.
Proof.
  induction l as [|a l IH]; cbn; [lia|]. intros Hnd.
  inversion Hnd as [|x xs Hnotin Hnd']; subst.
  destruct (label_eqb (fst a) v) eqn:E.
  - apply String.eqb_eq in E. subst v.
    rewrite (filter_label_notin _ _ Hnotin). cbn. lia.
  - now apply IH.
Qed.





Lemma columns_of_single (df : DataFrame) (v : string) :
  NoDup (columns_values df) -> In v (columns_values df) ->
  columns_of df v = [column_of df v].
Proof.
  intros Hnd Hin. unfold column_of, columns_of.
  pose proof (filter_label_le1 v _ Hnd) as Hle.
  pose proof (filter_label_in v _ Hin) as Hne.
  destruct (filter (fun c => label_eqb (fst c) v) (df_columns df)) as [|a [|b l]];
    cbn in *; [congruence | reflexivity | lia].
Qed.

Lemma loc_columns_map (df : DataFrame) (vs : list string) :
  NoDup (columns_values df) ->
  (forall v, In v vs -> In v (columns_values df)) ->
  loc_columns df vs = inr (map (column_of df) vs).
Proof.
  intros Hnd Hall. induction vs as [|v vs IH]; cbn; [reflexivity|].
  rewrite (columns_of_single df v Hnd) by (apply Hall; now left).
  rewrite IH by (intros w Hw; apply Hall; now right). reflexivity.
Qed.


(** * The claims *)

(** ** C1 *)

(** C1 does not hold as written: the loop reads the unadjusted R-squared.
    With five observations, a full-model R-squared of 0.8, an adjusted
    R-squared of 0.5 (at most 0.7) and a p-value of 0.8, [backwardSelect()]
    removes X1 (and then raises at the refit, see C5).  With one
    observation of A and B and the same scores, [backwardSelect()] removes
    A and returns. *)
Lemma adjusted_Rsquared_is_not_consulted :
  (Rsquared_adj lowadj_selector = Some (5 # 10) /\
   5 # 10 <= Rsquared_floor /\
   exists s',
     backwardSelect lowadj_fit 20 default_criteria default_maxSteps
                    lowadj_selector = (Raise ValueError, s') /\
     variables lowadj_selector = ["X1"; "X2"; "X3"] /\
     variables s' = ["X2"; "X3"] /\
     option_map ncols (modelXBack s') = Some 2%nat) /\
  (Rsquared_adj row_lowadj_selector = Some (5 # 10) /\
   exists p s',
     backwardSelect_passes row_lowadj_fit 20 default_criteria default_maxSteps
                           row_lowadj_selector = (Done [p], s') /\
     variables row_lowadj_selector = ["A"; "B"] /\
     variables s' = ["B"]).
Proof.
  split.
  - split; [reflexivity|]. split; [unfold Rsquared_floor, Qle; cbn; lia|].
    eexists. split; [vm_compute; reflexivity|]. repeat split.
  - split; [reflexivity|].
    eexists. eexists. split; [vm_compute; reflexivity|]. split; reflexivity.
Qed.

(** At a loop head where the test fails, the loop returns at once, with no
    pass made and the object untouched. *)
Lemma while_exits_when_test_fails
      (sm : statsmodels) (fuel : nat) (c : Q) (mx it : Z)
      (s : Selector) :
  loop_test c mx it s = (Done false, s) ->
  backwardSelect_while sm fuel c mx it s = (Done [], s).
Proof.
  intros Ht. destruct fuel; cbn; unfold bind; rewrite Ht; reflexivity.
Qed.

(** C1 (amended): whenever [backwardSelect] returns, every pass it made
    started on the object left by the previous pass (the first one on the
    object with the working matrix re-initialised), and on that object some
    stored p-value was strictly above [criteria] and the stored unadjusted
    R-squared was strictly above 0.7.  At any loop head, with any counter,
    where no stored p-value is above [criteria] or the stored R-squared is
    at most 0.7, the loop exits without a pass.  In particular, when the
    R-squared stored at the call is at most 0.7, the call returns without
    any elimination, whatever the p-values are. *)
Theorem eliminations_only_under_loop_test
        (sm : statsmodels) (fuel : nat) (c : Q) (mx : Z)
        (s : Selector) :
  (forall tr s',
      backwardSelect_passes sm fuel c mx s = (Done tr, s') ->
      linked (loop_entry s) tr s' /\ Forall (entered_under c) tr) /\
  (forall it s0 r,
      results s0 = Some r ->
      (forall p, In p (pvalues r) -> p <= c) \/
      (exists r2, Rsquared s0 = Some r2 /\ r2 <= Rsquared_floor) ->
      backwardSelect_while sm fuel c mx it s0 = (Done [], s0)) /\
  (forall r r2,
      results s = Some r -> Rsquared s = Some r2 -> r2 <= Rsquared_floor ->
      backwardSelect_passes sm fuel c mx s = (Done [], loop_entry s)).
Proof.
  split; [|split].
  - intros tr s' H. apply backwardSelect_passes_run in H. split.
    + eapply run_linked; eassumption.
    + eapply run_Forall; [|eassumption].
      intros it s0 p s1 Ht Hp.
      apply loop_test_true in Ht.
      destruct Ht as (_ & r & r2 & Hr & Hsum & _ & Hr2 & Hgt).
      apply loop_pass_Done in Hp. destruct Hp as (Hb & _).
      unfold entered_under. rewrite Hb.
      exists r, r2. repeat split; try assumption.
      now apply sum_gt_nonzero.
  - intros it s0 r Hr [Hall|(r2 & Hr2 & Hle)];
      apply while_exits_when_test_fails.
    + eapply loop_test_no_pvalue; eassumption.
    + eapply loop_test_low_Rsquared; eassumption.
  - intros r r2 Hr Hr2 Hle.
    unfold backwardSelect_passes, backwardSelect_init, bind, gets, modify.
    fold (loop_entry s).
    apply while_exits_when_test_fails.
    eapply loop_test_low_Rsquared; [exact Hr | exact Hr2 | exact Hle].
Qed.

Lemma eliminations_only_under_loop_test_witness :
  (linked (loop_entry row_selector) row_passes row_selected /\
   Forall (entered_under default_criteria) row_passes /\
   length row_passes = 1%nat) /\
  backwardSelect_while row_fit 20 default_criteria default_maxSteps 1
                       row_selected = (Done [], row_selected) /\
  backwardSelect_passes flat_fit 20 default_criteria default_maxSteps flat_selector
  = (Done [], loop_entry flat_selector).
Proof.
  split; [|split].
  - destruct (proj1 (eliminations_only_under_loop_test
                       row_fit 20 default_criteria default_maxSteps
                       row_selector) row_passes row_selected) as [H1 H2].
    + vm_compute. reflexivity.
    + repeat split; assumption.
  - apply (proj1 (proj2 (eliminations_only_under_loop_test
                    row_fit 20 default_criteria default_maxSteps
                    row_selector)))
      with (r := mk_results [2] [2 # 100] (88 # 100) (8 # 10)).
    + reflexivity.
    + left. intros p [<-|[]]; unfold default_criteria, Qle; cbn; lia.
  - apply (proj2 (proj2 (eliminations_only_under_loop_test
                    flat_fit 20 default_criteria default_maxSteps flat_selector)))
      with (r := mk_results [1; 2; 3] [8 # 10; 3 # 100; 2 # 10] (6 # 10) (0 # 1))
           (r2 := 6 # 10).
    + reflexivity.
    + reflexivity.
    + unfold Rsquared_floor, Qle. cbn. lia.
Defined.

(** ** C2 *)

(** C2: the call terminates, but the bound is [maxSteps + 1], not
    [maxSteps]: the test [maxSteps >= iteration] still passes when
    [iteration = maxSteps].  With [maxSteps = 0] the call makes an
    elimination: on one observation of A and B it removes A and returns; on
    five observations of X1, X2, X3 it removes X1 before the refit
    raises. *)
Theorem maxSteps_zero_allows_an_elimination :
  (exists p s',
      backwardSelect_passes weak_fit 20 default_criteria 0 row_weak_selector
      = (Done [p], s') /\
      variables row_weak_selector = ["A"; "B"] /\
      variables s' = ["B"] /\
      (0 < Z.of_nat (length [p]))%Z) /\
  (exists s',
      backwardSelect weak_fit 20 default_criteria 0 weak_selector
      = (Raise ValueError, s') /\
      variables weak_selector = ["X1"; "X2"; "X3"] /\
      variables s' = ["X2"; "X3"]).
Proof.
  split.
  - eexists. eexists. split; [vm_compute; reflexivity|].
    repeat split; cbn; lia.
  - eexists. split; [vm_compute; reflexivity|]. split; reflexivity.
Qed.

(** What does hold: with fuel for [maxSteps + 1] passes the call returns or
    raises, and a returning call made at most [maxSteps + 1] eliminations,
    each of which took one identifier out of the registry. *)
Lemma backwardSelect_terminates_within_maxSteps_plus_one
      (sm : statsmodels) (fuel : nat) (c : Q) (mx : Z)
      (s : Selector) :
  (Z.to_nat (mx + 1) <= fuel)%nat ->
  fst (backwardSelect sm fuel c mx s) <> OutOfFuel /\
  forall tr s',
    backwardSelect_passes sm fuel c mx s = (Done tr, s') ->
    (Z.of_nat (length tr) <= Z.max 0 (mx + 1))%Z /\
    (length (variables s') + length tr = length (variables s))%nat.
Proof.
  intros Hfuel. split.
  - apply backwardSelect_terminates. unfold passes_left.
    replace (mx + 1 - 0)%Z with (mx + 1)%Z by lia. exact Hfuel.
  - intros tr s' H. apply backwardSelect_pass_bound in H.
    destruct H as [Hb Hr]. unfold passes_left in Hb. split; [lia | exact Hr].
Qed.

(** ** C3 *)

Section PassFacts.

Variable sm : statsmodels.

Lemma loop_pass_removes_first_argmax s p s1 :
  loop_pass sm s = (Done p, s1) -> removes_first_argmax p.
Proof.
  intros Hp. apply loop_pass_Done in Hp.
  destruct Hp as (Hb & Ha & r & m & vs & x & m' & r' & Hr & Hmax & Hitem & Hdel & Hnp & _ & _ & _ & _ & Hs1).
  apply list_del_inr in Hdel. destruct Hdel as [Hlt Hvs].
  apply np_delete_inr in Hnp. destruct Hnp as (xb & Hxb & Hlt' & Hx).
  unfold removes_first_argmax. rewrite Hb, Ha, Hs1.
  exists r, xb. subst vs x. cbn.
  split; [exact Hr|]. split; [exact (first_index_is_argmax _ _ _ Hmax Hitem)|].
  repeat split; assumption.
Qed.

Lemma loop_pass_refits s p s1 :
  loop_pass sm s = (Done p, s1) -> refit_pass sm p.
Proof.
  intros Hp. apply loop_pass_Done in Hp.
  destruct Hp as (Hb & Ha & r & m & vs & x & m' & r' & _ & _ & _ & _ & Hnp & _ & _ & Hnew & Hfit & Hs1).
  unfold refit_pass. rewrite Hb, Ha, Hs1. exists x, m', r'. cbn.
  repeat split; assumption.
Qed.

End PassFacts.

(** What does hold: at a loop head where the position is found inside the
    registry and the working matrix, that position is the first one of the
    largest stored p-value, and whatever the refit does afterwards the
    pass leaves the registry and the working matrix without it. *)
Lemma entered_pass_removes_first_largest
      (sm : statsmodels) (s : Selector) (i : nat) (xb : ndarray) :
  first_index_of_max s = (Done i, s) ->
  (i < length (variables s))%nat ->
  modelXBack s = Some xb ->
  (i < ncols xb)%nat ->
  (exists r, results s = Some r /\ first_argmax (pvalues r) i) /\
  variables (snd (loop_pass sm s)) = delete_at i (variables s) /\
  modelXBack (snd (loop_pass sm s))
  = Some (mk_ndarray (nrows xb) (delete_at i (columns xb))).
Proof.
  intros Hi Hlt Hxb Hlt'. split.
  - pose proof Hi as Hi'. apply first_index_of_max_Done in Hi'.
    destruct Hi' as (r & m & Hr & Hmax & Hitem & _).
    exists r. split; [exact Hr|]. exact (first_index_is_argmax _ _ _ Hmax Hitem).
  - assert (Hdel : list_del (variables s) i = inr (delete_at i (variables s))).
    { unfold list_del. replace (i <? length (variables s))%nat with true;
        [reflexivity|]. symmetry. now apply Nat.ltb_lt. }
    assert (Hnp : np_delete (modelXBack s) i
                  = inr (mk_ndarray (nrows xb) (delete_at i (columns xb)))).
    { rewrite Hxb. unfold np_delete.
      replace (i <? ncols xb)%nat with true; [reflexivity|].
      symmetry. now apply Nat.ltb_lt. }
    rewrite (loop_pass_eval sm s i _ _ Hi Hdel Hnp), modelOLS_eval.
    destruct (none_test _ _) as [e|stored]; cbn [snd]; [split; reflexivity|].
    destruct (sm_OLS sm _ _) as [e|m]; cbn [snd]; [split; reflexivity|].
    destruct (OLS_fit sm m); cbn [snd]; split; reflexivity.
Qed.

(** On a first call the tie is broken towards the lowest column: with
    p-values 0.9, 0.9, 0.1 for X1, X2, X3 the registry loses X1. *)
Lemma first_call_breaks_tie_towards_first_column :
  option_map pvalues (results tie_selector) = Some [9 # 10; 9 # 10; 1 # 10] /\
  variables tie_selector = ["X1"; "X2"; "X3"] /\
  variables (snd (backwardSelect tie_fit 20 default_criteria default_maxSteps
                                 tie_selector)) = ["X2"; "X3"].
Proof. repeat split. Qed.

(** C3: the position taken is the first one of the largest stored
    p-value, but the stored p-values need not be those of the registry.
    On five observations of X1, X2, X3 with p-values 0.8, 0.03, 0.2 a first
    [backwardSelect()] removes X1 and raises at the refit, so the p-values
    of the full model stay stored; the registry is not reset by a second
    call, which takes position 0 again and removes X2, the variable with
    the smallest p-value, keeping X3. *)
Theorem second_call_removes_variable_of_smallest_pvalue :
  variables scenario_selector = ["X1"; "X2"; "X3"] /\
  option_map pvalues (results scenario_selector)
  = Some [8 # 10; 3 # 100; 2 # 10] /\
  fst (backwardSelect scenario_fit 20 default_criteria default_maxSteps
                      scenario_selector) = Raise ValueError /\
  variables scenario_after_first = ["X2"; "X3"] /\
  option_map pvalues (results scenario_after_first)
  = Some [8 # 10; 3 # 100; 2 # 10] /\
  fst (backwardSelect scenario_fit 20 default_criteria default_maxSteps
                      scenario_after_first) = Raise ValueError /\
  variables scenario_after_second = ["X3"] /\
  3 # 100 < 2 # 10.
Proof.
  repeat split; try reflexivity.
Qed.

(** ** C4 *)

(** The first statement of [backwardSelect] writes the working matrix and
    nothing else; the loop counter starts at zero. *)
Lemma backwardSelect_init_effect (s : Selector) :
  backwardSelect_init s = (Done tt, loop_entry s) /\
  modelXBack (loop_entry s) = Some (modelX s) /\
  variables (loop_entry s) = variables s.
Proof. repeat split. Qed.

(** C4: [backwardSelect] resets the working matrix and the counter, but not
    the registry.  On one observation of A and B a first call removes A and
    returns; a second call starts (and here ends, no pass being made) with
    the full two-column working matrix and the one-identifier registry left
    by the first call.  The same on five observations, where the first call
    ended by raising: the first statement of a second call restores three
    columns under a registry of two. *)
Theorem second_select_does_not_reset_registry :
  (variables row_selector = ["A"; "B"] /\
   variables row_selected = ["B"] /\
   exists s',
     backwardSelect_passes row_fit 20 default_criteria default_maxSteps
                           row_selected = (Done [], s') /\
     modelXBack s' = Some (values exog_row) /\
     variables s' = ["B"] /\
     variables s' <> columns_values exog_row) /\
  (exists s',
     backwardSelect_init scenario_after_first = (Done tt, s') /\
     modelXBack s' = Some (values exog3) /\
     variables s' = ["X2"; "X3"] /\
     variables s' <> columns_values exog3).
Proof.
  split.
  - split; [reflexivity|]. split; [reflexivity|].
    eexists. split; [vm_compute; reflexivity|].
    split; [reflexivity|]. split; [reflexivity|].
    cbn. discriminate.
  - eexists. split; [reflexivity|].
    split; [reflexivity|]. split; [reflexivity|].
    cbn. discriminate.
Qed.

(** ** C5 *)

(** C5: the refit of a pass is reached only through the test
    [x == None or y == None], which raises ValueError on any matrix of more
    than one element.  On five observations of X1, X2, X3 the pass removes
    X1 from the registry and the working matrix, the refit raises, and the
    stored model, fit result, coefficients, R-squared and adjusted
    R-squared are still those of the full model. *)
Theorem refit_raises_on_shrunk_matrix :
  exists s',
    backwardSelect scenario_fit 20 default_criteria default_maxSteps
                   scenario_selector = (Raise ValueError, s') /\
    variables s' = ["X2"; "X3"] /\
    option_map columns (modelXBack s') = Some (map (column_of exog3) ["X2"; "X3"]) /\
    model s' = model scenario_selector /\
    results s' = results scenario_selector /\
    coef s' = Some [1; 2; 3] /\
    Rsquared s' = Rsquared scenario_selector /\
    Rsquared_adj s' = Rsquared_adj scenario_selector.
Proof.
  eexists. split; [vm_compute; reflexivity|].
  repeat split.
Qed.

(** ** C6 *)

(** C6: the pair of removals is synchronised, but the reset of the working
    matrix at the start of [backwardSelect] is not matched by a reset of
    the registry.  On one observation of A and B, after a first call that
    removed A, a second call leaves a registry of one identifier over a
    working matrix of two columns. *)
Theorem second_select_misaligns_registry_and_matrix :
  aligned row_selected /\
  exists s',
    backwardSelect row_fit 20 default_criteria default_maxSteps
                   row_selected = (Done tt, s') /\
    length (variables s') = 1%nat /\
    option_map ncols (modelXBack s') = Some 2%nat /\
    ~ aligned s'.
Proof.
  split; [reflexivity|].
  eexists. split; [vm_compute; reflexivity|].
  split; [reflexivity|]. split; [reflexivity|].
  unfold aligned. cbn. discriminate.
Qed.

(** When a second call does make a pass, the column it deletes is not the
    column of the identifier it deletes: the registry loses B while the
    working matrix loses the column of A, and the refit returns a
    coefficient for an empty registry. *)
Lemma second_select_removes_mismatched_column :
  let s1 := snd (backwardSelect weak_fit 20 default_criteria 0 row_weak_selector) in
  let s2 := snd (backwardSelect weak_fit 20 default_criteria 0 s1) in
  variables s1 = ["B"] /\
  fst (backwardSelect weak_fit 20 default_criteria 0 s1) = Done tt /\
  variables s2 = [] /\
  option_map columns (modelXBack s2) = Some [column_of exog_row "B"] /\
  option_map (@length Q) (coef s2) = Some 1%nat.
Proof. vm_compute. repeat split. Qed.

(** What does hold: each elimination takes exactly one identifier out of
    the registry together with one column out of the working matrix, and on
    an object fresh from the constructor (fitted or not) the two agree in
    size after every pass of the call. *)
Lemma first_select_keeps_alignment
      (sm : statsmodels) (fuel : nat) (c : Q) (mx : Z)
      (exog : DataFrame) (endog : list Q) (s : Selector)
      (tr : list pass) (s' : Selector) :
  modelX s = values exog -> variables s = columns_values exog ->
  backwardSelect_passes sm fuel c mx s = (Done tr, s') ->
  aligned s' /\
  Forall (fun p => aligned (before p) /\ aligned (after p) /\
                   S (length (variables (after p))) = length (variables (before p))) tr.
Proof.
  intros HX Hv H. apply backwardSelect_passes_run in H.
  pose proof (init_aligned exog endog s HX Hv) as Hal.
  destruct (run_aligned sm _ _ _ _ _ _ H Hal) as [Hend Hall]. split; [exact Hend|].
  assert (Hlen : Forall (fun p => S (length (variables (after p)))
                                  = length (variables (before p))) tr).
  { eapply run_Forall; [|eassumption].
    intros it s0 p s1 _ Hp. pose proof (loop_pass_registry sm _ _ _ Hp) as Hreg.
    apply loop_pass_Done in Hp. destruct Hp as (-> & -> & _). exact Hreg. }
  rewrite Forall_forall in *. intros p Hp.
  destruct (Hall p Hp) as [Hb Ha]. repeat split; auto.
Qed.

(** ** C7 *)

(** C7 does not hold as written: the error raised on an object that was
    never fit is Python's AttributeError (reading an attribute of [None]),
    not an error named NotFitted. *)
Lemma unfitted_error_is_not_NotFitted :
  results (init_attributes exog3 endog5) = None /\
  fst (backwardSelect scenario_fit 20 default_criteria default_maxSteps
                      (init_attributes exog3 endog5)) = Raise AttributeError /\
  fst (backwardSelect scenario_fit 20 default_criteria default_maxSteps
                      (init_attributes exog3 endog5)) <> Raise NotFitted /\
  fst (predict exog3 (init_attributes exog3 endog5)) <> Raise NotFitted.
Proof.
  split; [reflexivity|]. split; [reflexivity|].
  split; vm_compute; discriminate.
Qed.

(** C7 (amended): on an object whose fit result is absent, [backwardSelect]
    raises AttributeError after it has initialised the working matrix, and
    [predict] raises AttributeError leaving the object as it was; neither
    returns. *)
Theorem unfitted_select_and_predict_raise
        (sm : statsmodels) (fuel : nat) (c : Q) (mx : Z)
        (exogTest : DataFrame) (s : Selector) :
  results s = None ->
  backwardSelect sm fuel c mx s = (Raise AttributeError, loop_entry s) /\
  predict exogTest s = (Raise AttributeError, s).
Proof.
  intros Hr. split.
  - unfold backwardSelect, backwardSelect_passes, backwardSelect_init.
    unfold bind at 1 2 3. unfold gets, modify. fold (loop_entry s).
    assert (Ht : loop_test c mx 0 (loop_entry s) = (Raise AttributeError, loop_entry s)).
    { unfold loop_test, bind, attr. cbn. rewrite Hr. reflexivity. }
    destruct fuel; cbn; unfold bind; rewrite Ht; reflexivity.
  - unfold predict, bind, attr. rewrite Hr. reflexivity.
Qed.

Lemma unfitted_select_and_predict_raise_witness :
  results (init_attributes exog3 endog5) = None /\
  backwardSelect scenario_fit 20 default_criteria default_maxSteps
                 (init_attributes exog3 endog5)
  = (Raise AttributeError, loop_entry (init_attributes exog3 endog5)) /\
  predict test_survivors (init_attributes exog3 endog5)
  = (Raise AttributeError, init_attributes exog3 endog5).
Proof.
  split; [reflexivity|].
  apply (unfitted_select_and_predict_raise
           scenario_fit 20 default_criteria default_maxSteps test_survivors
           (init_attributes exog3 endog5)).
  reflexivity.
Defined.

(** ** C8 *)

(** C8 does not hold as written: a target of three values is accepted with
    a predictor matrix of five observations. *)
Lemma init_accepts_mismatched_target :
  length [1; 2; 3] <> df_nrows exog3 /\
  nrows (values exog3) = 5%nat /\
  (exists s, __init__ exog3 [1; 2; 3] = Done s) /\
  ~ ((exists e, __init__ exog3 [1; 2; 3] = Raise e) <->
     length [1; 2; 3] <> df_nrows exog3).
Proof.
  split; [cbn; lia|]. split; [reflexivity|]. split; [eexists; reflexivity|].
  intros [_ H]. destruct H as [e He]; [cbn; lia|]. discriminate.
Qed.

(** C8 (amended): construction stores the predictor matrix, the target and
    the column identifiers, leaves every other attribute empty, and never
    fails, whatever the length of the target. *)
Theorem init_stores_and_never_fails (exog : DataFrame) (endog : list Q) :
  exists s,
    __init__ exog endog = Done s /\
    modelX s = values exog /\
    modelY s = endog /\
    variables s = columns_values exog /\
    modelXBack s = None /\ model s = None /\ results s = None /\
    coef s = None /\ Rsquared s = None /\ Rsquared_adj s = None.
Proof.
  exists (init_attributes exog endog). repeat split.
Qed.

(** ** C9 *)



(** ** C10 *)

(** C10: [predict] leaves the object exactly as it found it, whatever the
    input and whether it returns or raises: registry, predictor matrices,
    target, model, fit result, coefficients and both R-squared values. *)
Theorem predict_preserves_state (exogTest : DataFrame) (s : Selector) :
  snd (predict exogTest s) = s.
Proof.
  unfold predict, bind, attr, gets, lift.
  destruct (results s) as [r|]; cbn; [|reflexivity].
  destruct (loc exogTest (variables s)) as [e|x]; cbn; [reflexivity|].
  destruct (results_predict r x); reflexivity.
Qed.

(** * Further properties of the class *)

(** ** Outcomes of the loop test *)

Section Outcomes.

Variable sm : statsmodels.

(** The loop test fails exactly on one of the three exit conditions. *)
Lemma loop_test_false c mx it s :
  loop_test c mx it s = (Done false, s) ->
  exists r, results s = Some r /\
    ((forall p, In p (pvalues r) -> p <= c) \/
     (mx < it)%Z \/
     (exists r2, Rsquared s = Some r2 /\ r2 <= Rsquared_floor)).
Proof.
  unfold loop_test, bind, attr, gets, ret, raise.
  destruct (results s) as [r|]; cbn; [|discriminate].
  intros H. exists r. split; [reflexivity|].
  destruct (sum_gt (pvalues r) c =? 0)%nat eqn:Esum; cbn in H.
  { left. apply Nat.eqb_eq in Esum. intros p Hin.
    destruct (Qlt_le_dec c p) as [Hlt|Hle]; [|exact Hle].
    exfalso. assert (Hn : sum_gt (pvalues r) c <> 0%nat).
    { apply sum_gt_nonzero. eauto. }
    contradiction. }
  destruct (mx >=? it)%Z eqn:Eit; cbn in H.
  2:{ right. left. rewrite Z.geb_leb in Eit. apply Z.leb_gt in Eit. exact Eit. }
  right. right. destruct (Rsquared s) as [r2|]; cbn in H; [|discriminate].
  exists r2. split; [reflexivity|]. apply Qgt_bool_false_iff.
  inversion H. reflexivity.
Qed.

End Outcomes.

(** ** The exit condition *)

Section Exit.

Variable sm : statsmodels.

Lemma run_exit_test c mx it s tr s' :
  run sm c mx it s tr s' ->
  loop_test c mx (it + Z.of_nat (length tr)) s' = (Done false, s').
Proof.
  intros Hrun. induction Hrun as [it s Ht|it s p s1 tr s' Ht Hp Hrun IH].
  - cbn. now rewrite Z.add_0_r.
  - cbn [length]. rewrite Nat2Z.inj_succ.
    replace (it + Z.succ (Z.of_nat (length tr)))%Z
      with (it + 1 + Z.of_nat (length tr))%Z by lia.
    exact IH.
Qed.

End Exit.

(** X1: when [backwardSelect] returns, the object it leaves has a stored
    fit, and one of the three exit conditions holds of it: no stored
    p-value is above [criteria], or more than [maxSteps] eliminations were
    made, or the stored R-squared is at most 0.7.  So a call that made at
    most [maxSteps] eliminations stopped on the p-values or on the
    R-squared. *)
Theorem select_exit_condition
        (sm : statsmodels) (fuel : nat) (c : Q) (mx : Z)
        (s : Selector) (tr : list pass) (s' : Selector) :
  backwardSelect_passes sm fuel c mx s = (Done tr, s') ->
  exists r,
    results s' = Some r /\
    ((forall p, In p (pvalues r) -> p <= c) \/
     (mx < Z.of_nat (length tr))%Z \/
     (exists r2, Rsquared s' = Some r2 /\ r2 <= Rsquared_floor)).
Proof.
  intros H. apply backwardSelect_passes_run in H.
  apply run_exit_test in H. rewrite Z.add_0_l in H.
  now apply loop_test_false in H.
Qed.

Lemma select_exit_condition_witness :
  length row_passes = 1%nat /\
  exists r,
    results row_selected = Some r /\
    ((forall p, In p (pvalues r) -> p <= default_criteria) \/
     (default_maxSteps < Z.of_nat (length row_passes))%Z \/
     (exists r2, Rsquared row_selected = Some r2 /\ r2 <= Rsquared_floor)).
Proof.
  split; [reflexivity|].
  apply (select_exit_condition row_fit 20 default_criteria default_maxSteps
                               row_selector row_passes row_selected).
  vm_compute. reflexivity.
Defined.

Lemma predict_eval (s : Selector) (r : RegressionResults) (exogTest : DataFrame) :
  results s = Some r ->
  NoDup (columns_values exogTest) ->
  (forall v, In v (variables s) -> In v (columns_values exogTest)) ->
  predict exogTest s
  = lift (np_dot (mk_ndarray (df_nrows exogTest)
                             (map (column_of exogTest) (variables s)))
                 (params r)) s.
Proof.
  intros Hr Hnd Hall.
  unfold predict, bind, attr, gets, loc, results_predict. rewrite Hr.
  rewrite (loc_columns_map exogTest (variables s) Hnd Hall). reflexivity.
Qed.

(** ** What the methods keep *)

Lemma preserves_bind {A B : Type} (P : Selector -> Prop) (m : M A) (k : A -> M B) :
  preserves P m -> (forall a, preserves P (k a)) -> preserves P (bind m k).
Proof.
  intros Hm Hk s HP. unfold bind. specialize (Hm s HP).
  destruct (m s) as [[a|e|] s1]; cbn in *; [now apply Hk | exact Hm | exact Hm].
Qed.

Lemma preserves_ret {A : Type} (P : Selector -> Prop) (a : A) : preserves P (ret a).
Proof. intros s HP. exact HP. Qed.

Lemma preserves_raise {A : Type} (P : Selector -> Prop) (e : exn) :
  preserves P (@raise A e).
Proof. intros s HP. exact HP. Qed.

Lemma preserves_out_of_fuel {A : Type} (P : Selector -> Prop) :
  preserves P (@out_of_fuel A).
Proof. intros s HP. exact HP. Qed.

Lemma preserves_lift {A : Type} (P : Selector -> Prop) (r : exn + A) :
  preserves P (lift r).
Proof. destruct r; intros s HP; exact HP. Qed.

Lemma preserves_attr {A B : Type} (P : Selector -> Prop)
      (f : Selector -> option A) (g : A -> B) : preserves P (attr f g).
Proof. intros s HP. unfold attr. destruct (f s); exact HP. Qed.

Lemma preserves_gets {A : Type} (P : Selector -> Prop) (f : Selector -> A) :
  preserves P (gets f).
Proof. intros s HP. exact HP. Qed.

Lemma preserves_get (P : Selector -> Prop) : preserves P get.
Proof. intros s HP. exact HP. Qed.

Lemma preserves_modify (P : Selector -> Prop) (f : Selector -> Selector) :
  (forall s, P s -> P (f s)) -> preserves P (modify f).
Proof. intros Hf s HP. cbn. now apply Hf. Qed.

Create HintDb keep.
#[local] Hint Resolve preserves_ret preserves_raise preserves_out_of_fuel
  preserves_lift preserves_attr preserves_gets preserves_get : keep.

Section KeepingLoop.

Variable sm : statsmodels.
Variable P : Selector -> Prop.

(** [P] is kept by the removal of a position, does not look at the model
    object, and holds once the three scalars are those of the fit
    result. *)
Hypothesis P_removeColumn : forall i, preserves P (_removeColumn i).
Hypothesis P_model : forall m s, P s -> P (set_model m s).
Hypothesis P_refit : forall s m r, P s ->
  P (mk_selector (modelX s) (modelY s) (variables s) (modelXBack s)
                 (Some m) (Some r) (Some (params r))
                 (Some (rsquared r)) (Some (rsquared_adj r))).

Lemma preserves_modelOLS y x : preserves P (modelOLS sm y x).
Proof.
  intros s HP. rewrite modelOLS_eval.
  destruct (none_test y x) as [e|stored]; cbn [snd]; [exact HP|].
  destruct (sm_OLS sm _ _) as [e|m]; cbn [snd]; [exact HP|].
  destruct (OLS_fit sm m); cbn [snd]; auto.
Qed.

Lemma preserves_loop_test c mx it : preserves P (loop_test c mx it).
Proof.
  intros s HP. now rewrite loop_test_state.
Qed.

Lemma preserves_loop_pass : preserves P (loop_pass sm).
Proof.
  unfold loop_pass, first_index_of_max.
  pose proof preserves_modelOLS.
  repeat first [ solve [auto with keep]
               | apply preserves_bind; [|intros ?] ].
Qed.

Lemma preserves_while fuel c mx it :
  preserves P (backwardSelect_while sm fuel c mx it).
Proof.
  revert it. induction fuel as [|fuel IH]; intros it; cbn.
  - apply preserves_bind; [apply preserves_loop_test|].
    intros [|]; auto with keep.
  - apply preserves_bind; [apply preserves_loop_test|].
    intros [|]; [|auto with keep].
    apply preserves_bind; [apply preserves_loop_pass|]. intros p.
    apply preserves_bind; [apply IH|]. intros rest. auto with keep.
Qed.

End KeepingLoop.

Section Keeping.

Variable sm : statsmodels.
Variable P : Selector -> Prop.

(** [P] does not look at the registry, the working matrix or the model
    object, and holds once the three scalars are those of the fit result. *)
Hypothesis P_variables : forall v s, P s -> P (set_variables v s).
Hypothesis P_modelXBack : forall x s, P s -> P (set_modelXBack x s).
Hypothesis P_model : forall m s, P s -> P (set_model m s).
Hypothesis P_refit : forall s m r, P s ->
  P (mk_selector (modelX s) (modelY s) (variables s) (modelXBack s)
                 (Some m) (Some r) (Some (params r))
                 (Some (rsquared r)) (Some (rsquared_adj r))).

Lemma preserves_removeColumn i : preserves P (_removeColumn i).
Proof.
  unfold _removeColumn.
  repeat first [ solve [auto with keep]
               | apply preserves_modify; intros; solve [auto]
               | apply preserves_bind; [|intros ?] ].
Qed.

Lemma preserves_backwardSelect fuel c mx :
  preserves P (backwardSelect sm fuel c mx).
Proof.
  unfold backwardSelect, backwardSelect_passes, backwardSelect_init.
  pose proof (preserves_while sm P preserves_removeColumn P_model P_refit
                              fuel c mx 0%Z).
  repeat first [ solve [auto with keep]
               | apply preserves_modify; intros; solve [auto]
               | apply preserves_bind; [|intros ?] ].
Qed.

End Keeping.

(** X3: no method ever changes the predictor matrix and the target given at
    construction: after [modelOLS], [_removeColumn], [backwardSelect] or
    [predict], whether the call returned or raised, [modelX] and [modelY]
    are what they were. *)
Theorem methods_keep_source_data
        (sm : statsmodels) (s : Selector) :
  (forall y x, same_source s (snd (modelOLS sm y x s))) /\
  (forall i, same_source s (snd (_removeColumn i s))) /\
  (forall fuel c mx, same_source s (snd (backwardSelect sm fuel c mx s))) /\
  (forall exogTest, same_source s (snd (predict exogTest s))).
Proof.
  assert (H0 : same_source s s) by (split; reflexivity).
  repeat split.
  - revert H0. apply (preserves_modelOLS sm (same_source s));
      unfold same_source; cbn; auto.
  - revert H0. apply (preserves_modelOLS sm (same_source s));
      unfold same_source; cbn; auto.
  - revert H0. apply (preserves_removeColumn (same_source s));
      unfold same_source; cbn; auto.
  - revert H0. apply (preserves_removeColumn (same_source s));
      unfold same_source; cbn; auto.
  - revert H0. apply (preserves_backwardSelect sm (same_source s));
      unfold same_source; cbn; auto.
  - revert H0. apply (preserves_backwardSelect sm (same_source s));
      unfold same_source; cbn; auto.
  - unfold predict, bind, attr, gets, lift.
    destruct (results s); cbn; [|reflexivity].
    destruct (loc exogTest (variables s)); cbn; [reflexivity|].
    destruct (results_predict _ _); reflexivity.
  - unfold predict, bind, attr, gets, lift.
    destruct (results s); cbn; [|reflexivity].
    destruct (loc exogTest (variables s)); cbn; [reflexivity|].
    destruct (results_predict _ _); reflexivity.
Qed.



(** ** Identifiers stay over their columns *)

Lemma subseq_refl {A : Type} (l : list A) : subseq l l.
Proof. induction l; [apply subseq_nil | now apply subseq_keep]. Qed.

Lemma subseq_trans {A : Type} (l1 l2 l3 : list A) :
  subseq l1 l2 -> subseq l2 l3 -> subseq l1 l3.
Proof.
  intros H12 H23. revert l1 H12.
  induction H23 as [|x l2 l3 H IH|x l2 l3 H IH]; intros l1 H12.
  - exact H12.
  - constructor. now apply IH.
  - inversion H12; subst.
    + apply subseq_skip. now apply IH.
    + apply subseq_keep. now apply IH.
Qed.

Lemma subseq_delete_at {A : Type} (i : nat) (l : list A) :
  subseq (delete_at i l) l.
Proof.
  revert l. induction i as [|i IH]; intros [|a l]; cbn.
  - apply subseq_nil.
  - apply subseq_skip. apply subseq_refl.
  - apply subseq_nil.
  - apply subseq_keep. apply IH.
Qed.

Lemma subseq_length {A : Type} (l l' : list A) :
  subseq l l' -> (length l <= length l')%nat.
Proof. induction 1; cbn; lia. Qed.

Lemma delete_at_nil {A : Type} (i : nat) : delete_at i (@nil A) = [].
Proof. destruct i; reflexivity. Qed.

Lemma delete_at_cons {A : Type} (i : nat) (a : A) (l : list A) :
  delete_at (S i) (a :: l) = a :: delete_at i l.
Proof. reflexivity. Qed.

Lemma combine_delete_at {A B : Type} (i : nat) (l1 : list A) (l2 : list B) :
  combine (delete_at i l1) (delete_at i l2) = delete_at i (combine l1 l2).
Proof.
  revert l1 l2. induction i as [|i IH]; intros l1 l2.
  - destruct l1 as [|a l1], l2 as [|b l2]; try reflexivity.
    unfold delete_at. cbn. apply combine_nil.
  - destruct l1 as [|a l1]; [now rewrite !delete_at_nil|].
    destruct l2 as [|b l2].
    + rewrite delete_at_nil. cbn [combine]. rewrite delete_at_nil. apply combine_nil.
    + rewrite !delete_at_cons. cbn [combine]. rewrite delete_at_cons.
      now rewrite IH.
Qed.

Lemma combine_fst_snd {A B : Type} (l : list (A * B)) :
  combine (map fst l) (map snd l) = l.
Proof.
  induction l as [|[a b] l IH]; cbn; [reflexivity | now rewrite IH].
Qed.

Section Pairing.

Variable sm : statsmodels.

Lemma loop_pass_labelled s p s1 L :
  loop_pass sm s = (Done p, s1) -> labelled_columns s = Some L ->
  labelled_columns s1 = Some (delete_at (indexRemove p) L) /\
  (indexRemove p < length L)%nat.
Proof.
  intros Hp HL. apply loop_pass_Done in Hp.
  destruct Hp as (_ & _ & r & m & vs & x & m' & r' & _ & _ & _ & Hdel & Hnp & _ & _ & _ & _ & ->).
  apply list_del_inr in Hdel. destruct Hdel as [Hlt ->].
  apply np_delete_inr in Hnp. destruct Hnp as (xb & Hxb & Hlt' & ->).
  unfold labelled_columns in *. rewrite Hxb in HL. cbn in *.
  inversion HL; subst L. split.
  - now rewrite combine_delete_at.
  - rewrite length_combine. unfold ncols in Hlt'. lia.
Qed.

Lemma run_labelled c mx it s tr s' L :
  run sm c mx it s tr s' -> labelled_columns s = Some L ->
  exists L', labelled_columns s' = Some L' /\ subseq L' L /\
             (length L' + length tr = length L)%nat.
Proof.
  intros Hrun. revert L.
  induction Hrun as [it s Ht|it s p s1 tr s' Ht Hp Hrun IH]; intros L HL.
  - exists L. split; [exact HL|]. split; [apply subseq_refl | cbn; lia].
  - destruct (loop_pass_labelled s p s1 L Hp HL) as [HL1 Hlt].
    destruct (IH _ HL1) as (L' & HL' & Hsub & Hlen).
    exists L'. split; [exact HL'|]. split.
    + eapply subseq_trans; [exact Hsub | apply subseq_delete_at].
    + cbn. pose proof (delete_at_length _ _ Hlt). lia.
Qed.

(** The removal of a position keeps the registry over its columns, whether
    it returns or raises: on an object where both have one size the two
    deletions succeed or fail together. *)
Lemma labels_over_removeColumn L0 i :
  preserves (labels_over L0) (_removeColumn i).
Proof.
  intros s (Hal & L & HL & Hsub).
  unfold aligned in Hal. unfold labelled_columns in HL.
  destruct (modelXBack s) as [xb|] eqn:Hxb; cbn in Hal, HL; [|discriminate].
  inversion Hal as [Hn]. inversion HL as [HL']. clear HL Hal.
  destruct (i <? length (variables s))%nat eqn:Ei.
  - apply Nat.ltb_lt in Ei.
    assert (Hdel : list_del (variables s) i = inr (delete_at i (variables s))).
    { unfold list_del. replace (i <? length (variables s))%nat with true;
        [reflexivity|]. symmetry. now apply Nat.ltb_lt. }
    assert (Hnp : np_delete (modelXBack s) i
                  = inr (mk_ndarray (nrows xb) (delete_at i (columns xb)))).
    { rewrite Hxb. unfold np_delete.
      replace (i <? ncols xb)%nat with true; [reflexivity|].
      symmetry. apply Nat.ltb_lt. lia. }
    rewrite (removeColumn_eval i s _ _ Hdel Hnp). cbn [snd]. split.
    + unfold aligned, ncols in *. cbn. f_equal.
      pose proof (delete_at_length i (variables s) Ei).
      assert (Hc : (i < length (columns xb))%nat) by lia.
      pose proof (delete_at_length i (columns xb) Hc). lia.
    + exists (delete_at i L). split.
      * unfold labelled_columns. cbn. rewrite combine_delete_at.
        now rewrite HL'.
      * eapply subseq_trans; [apply subseq_delete_at | exact Hsub].
  - unfold _removeColumn, bind, gets, list_del. rewrite Ei. cbn.
    split.
    + unfold aligned. rewrite Hxb. cbn. now rewrite Hn.
    + exists L. split; [|exact Hsub].
      unfold labelled_columns. rewrite Hxb. cbn. now rewrite HL'.
Qed.

Lemma labels_over_while L0 fuel c mx it :
  preserves (labels_over L0) (backwardSelect_while sm fuel c mx it).
Proof.
  apply preserves_while.
  - apply labels_over_removeColumn.
  - intros m s H. exact H.
  - intros s m r H. exact H.
Qed.

Lemma backwardSelect_state fuel c mx s :
  snd (backwardSelect sm fuel c mx s)
  = snd (backwardSelect_while sm fuel c mx 0%Z (loop_entry s)).
Proof.
  unfold backwardSelect, backwardSelect_passes, backwardSelect_init.
  unfold bind at 1 2 3. unfold gets, modify. fold (loop_entry s).
  destruct (backwardSelect_while sm fuel c mx 0 (loop_entry s)) as [[tr|e|] s'];
    reflexivity.
Qed.

End Pairing.

(** X5: on an object built from a table [exog], whether [backwardSelect]
    returns or raises, the registry it leaves lies over the columns of the
    working matrix as a part of the labelled columns of [exog], order
    kept: every surviving identifier still names the column it named in
    the input.  When the call returns, exactly one labelled column was
    left out per pass. *)
Theorem first_select_keeps_labels_over_columns
        (sm : statsmodels) (exog : DataFrame) (s : Selector) :
  modelX s = values exog -> variables s = columns_values exog ->
  (forall fuel c mx,
      labels_over (df_columns exog) (snd (backwardSelect sm fuel c mx s))) /\
  (forall fuel c mx tr s',
      backwardSelect_passes sm fuel c mx s = (Done tr, s') ->
      exists L,
        labelled_columns s' = Some L /\
        subseq L (df_columns exog) /\
        (length L + length tr = length (df_columns exog))%nat).
Proof.
  intros HX Hv.
  assert (HL : labelled_columns (loop_entry s) = Some (df_columns exog)).
  { unfold labelled_columns, loop_entry, copy. cbn. rewrite HX, Hv.
    unfold values, columns_values. cbn. now rewrite combine_fst_snd. }
  split.
  - intros fuel c mx. rewrite backwardSelect_state.
    apply labels_over_while. split.
    + unfold aligned, loop_entry, copy. cbn. rewrite HX, Hv.
      unfold ncols, values, columns_values. cbn. now rewrite !length_map.
    + exists (df_columns exog). split; [exact HL | apply subseq_refl].
  - intros fuel c mx tr s' H. apply backwardSelect_passes_run in H.
    exact (run_labelled sm _ _ _ _ _ _ (df_columns exog) H HL).
Qed.

Lemma first_select_keeps_labels_over_columns_witness :
  labels_over (df_columns exog3) scenario_after_first /\
  labelled_columns scenario_after_first
  = Some [ ("X2", column_of exog3 "X2"); ("X3", column_of exog3 "X3") ] /\
  exists L,
    labelled_columns row_selected = Some L /\
    subseq L (df_columns exog_row) /\
    (length L + length row_passes = length (df_columns exog_row))%nat.
Proof.
  split; [|split].
  - apply (proj1 (first_select_keeps_labels_over_columns
                    scenario_fit exog3 scenario_selector eq_refl eq_refl)).
  - reflexivity.
  - apply (proj2 (first_select_keeps_labels_over_columns
                    row_fit exog_row row_selector eq_refl eq_refl)
                 20%nat default_criteria default_maxSteps row_passes row_selected).
    vm_compute. reflexivity.
Defined.

(** ** An error in the middle of a pass *)

(** X6: there is no rollback.  At a loop head where the test passes and the
    position is found, inside the registry and the working matrix, the
    identifier and the column are removed before the refit, and a refit
    that raises leaves them removed with the previous fit result and
    scalars still stored.  If the shrunk matrix has more than one element
    the refit raises ValueError without calling the solver; if it has one
    element (and the target has one) and the solver raises [e], in
    [sm.OLS] or in [fit], the loop raises [e]. *)
Theorem failed_refit_keeps_removal
        (sm : statsmodels) (fuel : nat) (c : Q) (mx it : Z)
        (s : Selector) (i : nat) (xb : ndarray) :
  loop_test c mx it s = (Done true, s) ->
  first_index_of_max s = (Done i, s) ->
  (i < length (variables s))%nat ->
  modelXBack s = Some xb ->
  (i < ncols xb)%nat ->
  let vs := delete_at i (variables s) in
  let x := mk_ndarray (nrows xb) (delete_at i (columns xb)) in
  ((1 < ndarray_size x)%nat ->
   exists s',
     backwardSelect_while sm (S fuel) c mx it s = (Raise ValueError, s') /\
     removal_kept s vs x s') /\
  (ndarray_size x = 1%nat -> length (modelY s) = 1%nat ->
   forall e,
     (sm_OLS sm (modelY s) x = inl e \/
      exists m, sm_OLS sm (modelY s) x = inr m /\ OLS_fit sm m = inl e) ->
     exists s',
       backwardSelect_while sm (S fuel) c mx it s = (Raise e, s') /\
       removal_kept s vs x s').
Proof.
  intros Ht Hi Hlt Hxb Hlt' vs x.
  assert (Hdel : list_del (variables s) i = inr vs).
  { unfold list_del. replace (i <? length (variables s))%nat with true;
      [reflexivity|]. symmetry. now apply Nat.ltb_lt. }
  assert (Hnp : np_delete (modelXBack s) i = inr x).
  { rewrite Hxb. unfold np_delete.
    replace (i <? ncols xb)%nat with true; [reflexivity|].
    symmetry. now apply Nat.ltb_lt. }
  assert (Hw : forall e s',
             modelOLS sm (Some (modelY s)) (Some x)
                      (set_modelXBack (Some x) (set_variables vs s))
             = (Raise e, s') ->
             backwardSelect_while sm (S fuel) c mx it s = (Raise e, s')).
  { intros e s' Hm. cbn [backwardSelect_while]. unfold bind at 1. rewrite Ht.
    unfold bind at 1. rewrite (loop_pass_eval sm s i vs x Hi Hdel Hnp), Hm.
    reflexivity. }
  split.
  - intros Hsize. eexists. split.
    + apply Hw. apply modelOLS_raises_on_array. exact Hsize.
    + repeat split.
  - intros Hsx Hsy e He.
    assert (Hnt : none_test (Some (modelY s)) (Some x) = inr false).
    { rewrite none_test_given, Hsx, Hsy. reflexivity. }
    destruct He as [Hnew|(m & Hnew & Hfit)].
    + eexists. split.
      * apply Hw. rewrite modelOLS_eval, Hnt. cbn [fit_data fst snd].
        rewrite Hnew. reflexivity.
      * repeat split.
    + eexists. split.
      * apply Hw. rewrite modelOLS_eval, Hnt. cbn [fit_data fst snd].
        rewrite Hnew, Hfit. reflexivity.
      * repeat split.
Qed.

Lemma failed_refit_keeps_removal_witness :
  (exists s',
     backwardSelect_while scenario_fit 1 default_criteria default_maxSteps 0
                          (loop_entry scenario_selector)
     = (Raise ValueError, s') /\
     removal_kept (loop_entry scenario_selector) ["X2"; "X3"]
                  (mk_ndarray 5 (map (column_of exog3) ["X2"; "X3"])) s') /\
  (exists s',
     backwardSelect_while brittle_fit 1 default_criteria default_maxSteps 0
                          (loop_entry row_brittle_selector)
     = (Raise LinAlgError, s') /\
     removal_kept (loop_entry row_brittle_selector) ["B"]
                  (mk_ndarray 1 [column_of exog_row "B"]) s').
Proof.
  split.
  - apply (proj1 (failed_refit_keeps_removal
                    scenario_fit 0 default_criteria default_maxSteps 0
                    (loop_entry scenario_selector) 0 (values exog3)
                    eq_refl eq_refl ltac:(cbn; lia) eq_refl ltac:(cbn; lia))).
    cbn. lia.
  - apply (proj2 (failed_refit_keeps_removal
                    brittle_fit 0 default_criteria default_maxSteps 0
                    (loop_entry row_brittle_selector) 0 (values exog_row)
                    eq_refl eq_refl ltac:(cbn; lia) eq_refl ltac:(cbn; lia))).
    + reflexivity.
    + reflexivity.
    + right. eexists. split; reflexivity.
Defined.

(** ** Errors of [predict] *)

Lemma loc_columns_missing (df : DataFrame) (vs : list string) :
  (exists v, In v vs /\ ~ In v (columns_values df)) ->
  loc_columns df vs = inl KeyError.
Proof.
  induction vs as [|w vs IH]; intros (v & Hin & Hno); [destruct Hin|].
  cbn. unfold columns_of.
  destruct (filter (fun c => label_eqb (fst c) w) (df_columns df))
    as [|a l] eqn:Ef; [reflexivity|].
  cbn [map]. destruct Hin as [->|Hin].
  - exfalso. rewrite (filter_label_notin v _ Hno) in Ef. discriminate.
  - rewrite IH; [reflexivity|]. eauto.
Qed.

Lemma loc_columns_inl (df : DataFrame) (vs : list string) (e : exn) :
  loc_columns df vs = inl e ->
  e = KeyError /\ exists v, In v vs /\ ~ In v (columns_values df).
Proof.
  induction vs as [|w vs IH]; cbn; [discriminate|].
  unfold columns_of.
  destruct (filter (fun c => label_eqb (fst c) w) (df_columns df))
    as [|a l] eqn:Ef; cbn [map].
  - intros H. inversion H. split; [reflexivity|].
    exists w. split; [now left|]. intros Hin.
    exact (filter_label_in w _ Hin Ef).
  - destruct (loc_columns df vs) as [e'|rest]; [|discriminate].
    intros H. inversion H; subst e'.
    destruct (IH eq_refl) as (He & v & Hin & Hno).
    split; [exact He|]. exists v. split; [now right | exact Hno].
Qed.

(** X7: on a fitted object, [predict] raises KeyError exactly when some
    identifier of the registry has no column in the input, and then leaves
    the object as it was; when every identifier has its column (labels
    distinct) but the registry and the coefficient vector differ in size,
    it raises ValueError. *)
Theorem predict_error_cases
        (s : Selector) (r : RegressionResults) (exogTest : DataFrame) :
  results s = Some r ->
  ((exists v, In v (variables s) /\ ~ In v (columns_values exogTest)) <->
   predict exogTest s = (Raise KeyError, s)) /\
  (NoDup (columns_values exogTest) ->
   (forall v, In v (variables s) -> In v (columns_values exogTest)) ->
   length (variables s) <> length (params r) ->
   predict exogTest s = (Raise ValueError, s)).
Proof.
  intros Hr. split; [split|].
  - intros Hmiss. unfold predict, bind, attr, gets, loc. rewrite Hr.
    now rewrite (loc_columns_missing exogTest (variables s) Hmiss).
  - unfold predict, bind, attr, gets, loc, results_predict. rewrite Hr.
    destruct (loc_columns exogTest (variables s)) as [e|cs] eqn:El.
    + intros _. now apply loc_columns_inl in El.
    + cbn [lift ret]. unfold np_dot.
      destruct (ncols _ =? length (params r))%nat; cbn; discriminate.
  - intros Hnd Hall Hlen.
    rewrite (predict_eval s r exogTest Hr Hnd Hall).
    unfold np_dot, ncols. cbn [columns nrows]. rewrite length_map.
    replace (length (variables s) =? length (params r))%nat with false;
      [reflexivity|].
    symmetry. now apply Nat.eqb_neq.
Qed.

Lemma predict_error_cases_witness :
  ((exists v, In v (variables pair_selector) /\
              ~ In v (columns_values test_missing)) <->
   predict test_missing pair_selector = (Raise KeyError, pair_selector)) /\
  predict test_missing pair_selector = (Raise KeyError, pair_selector) /\
  predict test_survivors scenario_after_first
  = (Raise ValueError, scenario_after_first).
Proof.
  pose proof (predict_error_cases
                pair_selector
                (mk_results [2; 3] [2 # 100; 4 # 100] (892 # 1000) (82 # 100))
                test_missing eq_refl) as [Hiff _].
  pose proof (predict_error_cases
                scenario_after_first
                (mk_results [1; 2; 3] [8 # 10; 3 # 100; 2 # 10] (94 # 100) (85 # 100))
                test_survivors eq_refl) as [_ Hval].
  split; [exact Hiff|]. split.
  - apply Hiff. exists "X3". split.
    + cbn. auto.
    + cbn. intuition discriminate.
  - apply Hval.
    + repeat constructor; cbn; intuition discriminate.
    + cbn. intuition.
    + cbn. discriminate.
Defined.

(** ** Removal of one position *)

Lemma nth_error_delete_at {A : Type} (i j : nat) (l : list A) :
  nth_error (delete_at i l) j = nth_error l (shifted i j).
Proof.
  revert j l. induction i as [|i IH]; intros j l.
  - unfold shifted. cbn. destruct l as [|a l]; cbn.
    + now destruct j.
    + reflexivity.
  - destruct l as [|a l].
    + rewrite delete_at_nil. unfold shifted.
      destruct (j <? S i)%nat; now destruct j.
    + rewrite delete_at_cons. destruct j as [|j].
      * reflexivity.
      * cbn [nth_error]. rewrite IH. unfold shifted.
        change (S j <? S i)%nat with (j <? i)%nat.
        destruct (j <? i)%nat; reflexivity.
Qed.

(** X8: [_removeColumn(i)] with [i] outside the registry raises IndexError
    and changes nothing.  When it returns, the registry and the working
    matrix have each lost exactly position [i]: entries before [i] stay in
    place, entries after [i] move down by one, the row count and the fit
    result are untouched. *)
Theorem removeColumn_drops_one_position (i : nat) (s : Selector) :
  ((length (variables s) <= i)%nat ->
   _removeColumn i s = (Raise IndexError, s)) /\
  (forall u s',
      _removeColumn i s = (Done u, s') ->
      exists xb xb',
        modelXBack s = Some xb /\ modelXBack s' = Some xb' /\
        nrows xb' = nrows xb /\
        S (length (variables s')) = length (variables s) /\
        S (ncols xb') = ncols xb /\
        (forall j, nth_error (variables s') j
                   = nth_error (variables s) (shifted i j)) /\
        (forall j, nth_error (columns xb') j
                   = nth_error (columns xb) (shifted i j)) /\
        results s' = results s /\ coef s' = coef s).
Proof.
  split.
  - intros Hle. unfold _removeColumn, bind, gets, list_del.
    replace (i <? length (variables s))%nat with false; [reflexivity|].
    symmetry. apply Nat.ltb_ge. exact Hle.
  - intros u s' H. apply removeColumn_Done in H.
    destruct H as (vs & x & Hdel & Hnp & ->).
    apply list_del_inr in Hdel. destruct Hdel as [Hlt ->].
    apply np_delete_inr in Hnp. destruct Hnp as (xb & Hxb & Hlt' & ->).
    exists xb. eexists. split; [exact Hxb|]. split; [reflexivity|].
    cbn. split; [reflexivity|].
    split; [now apply delete_at_length|].
    split; [unfold ncols in *; cbn; now apply delete_at_length|].
    split; [intros j; apply nth_error_delete_at|].
    split; [intros j; apply nth_error_delete_at|].
    split; reflexivity.
Qed.

Lemma removeColumn_drops_one_position_witness :
  _removeColumn 3 pair_selector = (Raise IndexError, pair_selector) /\
  exists xb xb',
    modelXBack (loop_entry scenario_selector) = Some xb /\
    modelXBack (snd (_removeColumn 1 (loop_entry scenario_selector))) = Some xb' /\
    nrows xb' = nrows xb /\
    variables (snd (_removeColumn 1 (loop_entry scenario_selector))) = ["X1"; "X3"].
Proof.
  split.
  - apply (proj1 (removeColumn_drops_one_position 3 pair_selector)).
    cbn. lia.
  - destruct (proj2 (removeColumn_drops_one_position 1 (loop_entry scenario_selector))
                    tt (snd (_removeColumn 1 (loop_entry scenario_selector))))
      as (xb & xb' & H1 & H2 & H3 & _).
    + reflexivity.
    + exists xb, xb'. repeat split; assumption.
Defined.

(** ** Refitting the full model after eliminations *)

(** X9: [modelOLS()] always refits the full matrix but never restores the
    registry.  On an object whose registry is shorter than the full matrix
    (as after any elimination), with a solver returning one coefficient per
    column, [modelOLS()] returns and leaves the registry as it was, and
    [predict] then raises ValueError on every input with distinct labels
    that has the registry's columns. *)
Theorem refit_full_after_removal_breaks_predict
        (sm : statsmodels) (s : Selector) (m : OLS)
        (r : RegressionResults) (exogTest : DataFrame) :
  sm_OLS sm (modelY s) (modelX s) = inr m ->
  OLS_fit sm m = inr r ->
  length (params r) = ncols (modelX s) ->
  length (variables s) <> ncols (modelX s) ->
  NoDup (columns_values exogTest) ->
  (forall v, In v (variables s) -> In v (columns_values exogTest)) ->
  exists s',
    modelOLS sm None None s = (Done tt, s') /\
    variables s' = variables s /\
    results s' = Some r /\
    predict exogTest s' = (Raise ValueError, s').
Proof.
  intros Hnew Hfit Hpar Hneq Hnd Hall.
  set (s' := mk_selector (modelX s) (modelY s) (variables s) (modelXBack s)
                         (Some m) (Some r)
                         (Some (params r)) (Some (rsquared r))
                         (Some (rsquared_adj r))).
  exists s'. split.
  { rewrite modelOLS_default, Hnew, Hfit. reflexivity. }
  split; [reflexivity|]. split; [reflexivity|].
  rewrite (predict_eval s' r exogTest eq_refl Hnd Hall).
  unfold np_dot, ncols. cbn [columns nrows]. rewrite length_map.
  change (variables s') with (variables s).
  replace (length (variables s) =? length (params r))%nat with false;
    [reflexivity|].
  symmetry. apply Nat.eqb_neq. unfold ncols in *. congruence.
Qed.

Lemma refit_full_after_removal_breaks_predict_witness :
  predict test_row row_selected = (Done [10; 14], row_selected) /\
  exists s',
    modelOLS row_fit None None row_selected = (Done tt, s') /\
    variables s' = variables row_selected /\
    results s' = Some (mk_results [1; 2] [8 # 10; 3 # 100] (9 # 10) (85 # 100)) /\
    predict test_row s' = (Raise ValueError, s').
Proof.
  split; [reflexivity|].
  apply (refit_full_after_removal_breaks_predict
           row_fit row_selected (mk_OLS endog_row (values exog_row))
           (mk_results [1; 2] [8 # 10; 3 # 100] (9 # 10) (85 # 100))
           test_row).
  - reflexivity.
  - reflexivity.
  - reflexivity.
  - cbn. discriminate.
  - repeat constructor; cbn; intuition discriminate.
  - cbn. intuition.
Defined.

(** ** Termination *)

(** X10: [backwardSelect] always comes to an end: with fuel for
    [maxSteps + 1] passes it returns or raises.  A returning call made at
    most [maxSteps + 1] eliminations, the registry lost exactly one
    identifier per elimination, and the result is the same for every larger
    amount of fuel. *)
Theorem select_terminates_within_budget
        (sm : statsmodels) (fuel : nat) (c : Q) (mx : Z)
        (s : Selector) :
  (Z.to_nat (mx + 1) <= fuel)%nat ->
  fst (backwardSelect sm fuel c mx s) <> OutOfFuel /\
  forall tr s',
    backwardSelect_passes sm fuel c mx s = (Done tr, s') ->
    (length tr <= Z.to_nat (mx + 1))%nat /\
    (length (variables s') + length tr = length (variables s))%nat /\
    forall fuel', (fuel <= fuel')%nat ->
                  backwardSelect_passes sm fuel' c mx s = (Done tr, s').
Proof.
  intros Hfuel.
  assert (Hleft : passes_left mx 0 = Z.to_nat (mx + 1)).
  { unfold passes_left. f_equal. lia. }
  split.
  - apply backwardSelect_terminates. now rewrite Hleft.
  - intros tr s' H.
    destruct (backwardSelect_pass_bound sm fuel c mx s tr s' H) as [Hb Hreg].
    split; [now rewrite <- Hleft|]. split; [exact Hreg|].
    intros fuel' Hle.
    unfold backwardSelect_passes, backwardSelect_init in *.
    unfold bind at 1 2 in H. unfold bind at 1 2.
    unfold gets, modify in *.
    now apply (while_fuel_mono sm fuel fuel').
Qed.

Lemma select_terminates_within_budget_witness :
  (Z.to_nat (default_maxSteps + 1) <= 20)%nat /\
  backwardSelect_passes row_fit 20 default_criteria default_maxSteps row_selector
  = (Done row_passes, row_selected) /\
  fst (backwardSelect row_fit 20 default_criteria default_maxSteps
                      row_selector) <> OutOfFuel /\
  forall tr s',
    backwardSelect_passes row_fit 20 default_criteria default_maxSteps
                          row_selector = (Done tr, s') ->
    (length tr <= Z.to_nat (default_maxSteps + 1))%nat /\
    (length (variables s') + length tr = length (variables row_selector))%nat /\
    forall fuel', (20 <= fuel')%nat ->
                  backwardSelect_passes row_fit fuel' default_criteria
                                        default_maxSteps row_selector
                  = (Done tr, s').
Proof.
  assert (H : (Z.to_nat (default_maxSteps + 1) <= 20)%nat) by (cbn; lia).
  split; [exact H|]. split; [vm_compute; reflexivity|].
  exact (select_terminates_within_budget
           row_fit 20 default_criteria default_maxSteps row_selector H).
Defined.
